(** * wikijs-secure-assets: the asset authentication service

    A shallow embedding of the two decision endpoints of the repository:

    - [AssetAuthService]: [asset-auth-service.js], the production service.
      It verifies the [jwt] cookie with the Wiki.js RSA public key and asks
      the Wiki.js PostgreSQL database for the group membership.
    - [MockAuthService]: [mock-auth-service.js], written out by
      [tests/setup-test-environment.sh].  It verifies the cookie with a
      shared secret and reads the groups from the token itself.

    The libraries the services call ([jsonwebtoken], [pg], [express]) are
    modelled by their documented behaviour, in modules of their own. *)

From stdpp Require Import base strings list gmap pretty.

Local Open Scope string_scope.
Local Open Scope Z_scope.

(** ** JavaScript values and exceptions *)

Module JS.

(** The exceptions that reach the services' [catch] blocks.  [name] is what
    [err.name] evaluates to. *)
Inductive Exn :=
| JsonWebTokenError (message : string)
| TokenExpiredError (message : string)
| TypeError (message : string)
| SyntaxError (message : string)
| StoreError (message : string).

Definition name (err : Exn) : string :=
  match err with
  | JsonWebTokenError _ => "JsonWebTokenError"
  | TokenExpiredError _ => "TokenExpiredError"
  | TypeError _ => "TypeError"
  | SyntaxError _ => "SyntaxError"
  | StoreError _ => "Error"
  end.

Definition message (err : Exn) : string :=
  match err with
  | JsonWebTokenError m | TokenExpiredError m | TypeError m | SyntaxError m
  | StoreError m => m
  end.

(** [`${x}`] for a string that may be [undefined]. *)
Definition show (x : option string) : string := default "undefined" x.

(** Decimal rendering of an integer inside a template literal. *)
Definition show_Z (n : Z) : string := pretty n.

(** The double quote character, as a string. *)
Definition dquote : string := String (Ascii.ascii_of_nat 34) "".

Definition quoted (s : string) : string :=
  String.append dquote (String.append s dquote).

(** [JSON.stringify] of an array of strings that may be [undefined]
    ([console.log] then prints [undefined]).  Group names hold no
    character that JSON escapes. *)
Fixpoint join_quoted (l : list string) : string :=
  match l with
  | [] => ""
  | [x] => quoted x
  | x :: rest => String.append (quoted x) (String.append "," (join_quoted rest))
  end.

Definition stringify (x : option (list string)) : string :=
  match x with
  | Some l => String.append "[" (String.append (join_quoted l) "]")
  | None => "undefined"
  end.

(** *** [decodeURIComponent]

    A string of this development stands for a JavaScript string in UTF-8.
    [decodeURIComponent] replaces every escape [%XX] by its octet, copies
    every other character, and throws a [URIError] ([None]) when a [%] is
    not followed by two hexadecimal digits or when the escaped octets are
    not the UTF-8 encoding of code points. *)

Definition percent : Ascii.ascii := Ascii.ascii_of_nat 37.

Definition hex_digit (c : Ascii.ascii) : option nat :=
  let n := Ascii.nat_of_ascii c in
  if (48 <=? n)%nat && (n <=? 57)%nat then Some (n - 48)%nat
  else if (65 <=? n)%nat && (n <=? 70)%nat then Some (n - 55)%nat
  else if (97 <=? n)%nat && (n <=? 102)%nat then Some (n - 87)%nat
  else None.

(** A character of the argument as it is read: copied, or the octet of an
    escape. *)
Inductive UriChar :=
| Literal (c : Ascii.ascii)
| Escaped (octet : nat).

Fixpoint unescape (s : string) : option (list UriChar) :=
  match s with
  | EmptyString => Some []
  | String c rest =>
      if Ascii.eqb c percent then
        match rest with
        | String h (String l rest') =>
            match hex_digit h, hex_digit l with
            | Some a, Some b => cons (Escaped (16 * a + b)) <$> unescape rest'
            | _, _ => None
            end
        | _ => None
        end
      else cons (Literal c) <$> unescape rest
  end.

(** The octets that have to follow the escaped octet [B], each with the
    range it has to be in (the well-formed UTF-8 sequences of the Unicode
    standard: no overlong form, no surrogate, nothing above U+10FFFF);
    [None] when [B] starts no sequence. *)
Definition continuation (B : nat) : option (list (nat * nat)) :=
  if (B <? 128)%nat then Some []
  else if (194 <=? B)%nat && (B <=? 223)%nat then Some [(128, 191)%nat]
  else if (B =? 224)%nat then Some [(160, 191)%nat; (128, 191)%nat]
  else if (225 <=? B)%nat && (B <=? 236)%nat || (B =? 238)%nat || (B =? 239)%nat
  then Some [(128, 191)%nat; (128, 191)%nat]
  else if (B =? 237)%nat then Some [(128, 159)%nat; (128, 191)%nat]
  else if (B =? 240)%nat then Some [(144, 191)%nat; (128, 191)%nat; (128, 191)%nat]
  else if (241 <=? B)%nat && (B <=? 243)%nat
  then Some [(128, 191)%nat; (128, 191)%nat; (128, 191)%nat]
  else if (B =? 244)%nat then Some [(128, 143)%nat; (128, 191)%nat; (128, 191)%nat]
  else None.

(** The escaped octets form UTF-8 sequences; [expect] holds the ranges of
    the octets that the sequence being read still needs, each of which has
    to be an escape. *)
Fixpoint well_formed (expect : list (nat * nat)) (l : list UriChar) : bool :=
  match l, expect with
  | [], [] => true
  | [], _ :: _ => false
  | Literal _ :: rest, [] => well_formed [] rest
  | Literal _ :: _, _ :: _ => false
  | Escaped B :: rest, (low, high) :: expect' =>
      (low <=? B)%nat && (B <=? high)%nat && well_formed expect' rest
  | Escaped B :: rest, [] =>
      match continuation B with
      | Some expect' => well_formed expect' rest
      | None => false
      end
  end.

Definition octet (u : UriChar) : Ascii.ascii :=
  match u with
  | Literal c => c
  | Escaped B => Ascii.ascii_of_nat B
  end.

Definition decodeURIComponent (s : string) : option string :=
  match unescape s with
  | Some l =>
      if well_formed [] l then Some (String.string_of_list_ascii (octet <$> l)) else None
  | None => None
  end.

End JS.

(** ** HTTP responses and the handler monad

    A handler writes lines to the console, may query the store, and either
    returns a response or throws.  The state is kept when an exception is
    thrown, as the console output and the queries already sent are. *)

Record Response := { status : Z; body : string }.

Record HandlerState := { console : list string; queries : nat }.

Definition M (A : Type) : Type := HandlerState → (JS.Exn + A) * HandlerState.

Definition ret {A} (x : A) : M A := λ st, (inr x, st).

Definition bind {A B} (m : M A) (k : A → M B) : M B :=
  λ st, match m st with
        | (inr x, st') => k x st'
        | (inl err, st') => (inl err, st')
        end.

Definition throw {A} (err : JS.Exn) : M A := λ st, (inl err, st).

Definition try_catch {A} (m : M A) (handler : JS.Exn → M A) : M A :=
  λ st, match m st with
        | (inr x, st') => (inr x, st')
        | (inl err, st') => handler err st'
        end.

Definition console_log (line : string) : M unit :=
  λ st, (inr tt, {| console := console st ++ [line]; queries := queries st |}).

(** [console.error] goes to the same stream of the service's journal. *)
Definition console_error (line : string) : M unit := console_log line.

Definition lift {A} (r : JS.Exn + A) : M A :=
  match r with
  | inr x => ret x
  | inl err => throw err
  end.

Notation "x ←' m ;' k" := (bind m (λ x, k))
  (at level 20, m at level 100, k at level 200, only parsing, right associativity).
Notation "m ;;' k" := (bind m (λ _, k))
  (at level 100, k at level 200, only parsing, right associativity).

(** [res.status(code).send(text)] followed by [return]. *)
Definition send (code : Z) (text : string) : M Response :=
  ret {| status := code; body := text |}.

Definition initial_state : HandlerState := {| console := []; queries := 0%nat |}.

(** Runs a handler on a fresh request.  The handlers of this repository catch
    what they throw, so the first case is the one that occurs; the second
    makes [run] total. *)
Definition run (m : M Response) : Response * list string :=
  match m initial_state with
  | (inr r, st) => (r, console st)
  | (inl err, st) => ({| status := 500; body := "Internal Server Error" |}, console st)
  end.

Definition respond (m : M Response) : Response := fst (run m).
Definition journal (m : M Response) : list string := snd (run m).

(** ** The jsonwebtoken library

    Tokens are modelled symbolically.  A token has a header algorithm, a
    payload and a signature part; a signature records the algorithm it was
    made with, the key that verifies it and the payload it was made over, so
    that it verifies exactly for that algorithm, key and payload (no forgery,
    and any change of the payload after signing is detected).

    [verify] follows the order of checks of [jwt.verify] and raises the
    errors its documentation lists, and the [SyntaxError] that it throws
    on, before any of its checks, when [jws.decode] cannot parse the
    payload.  The payload has the claims that the issuers of this
    repository set ([generate-token.js]: [email], [groups], [iat], [exp])
    and that the services read ([id], an integer in the tokens of
    Wiki.js).  A payload has no [nbf] claim: no issuer here sets one, and
    a token that carries one (for which [jwt.verify] can throw a
    [NotBeforeError]) is not a value of [Payload].  The services pass no
    [audience], [issuer] or [maxAge] option, so [jwt.verify] makes no check
    of the claims that go with them. *)

Module Jwt.

Record Payload := {
  id : option Z;
  email : option string;
  groups : option (list string);
  iat : option Z;
  exp : option Z
}.

Inductive Key :=
| RsaPublicKey (pem : string)
| Secret (text : string).

Inductive SignaturePart :=
| Unsigned
| Garbage (bytes : string)
| Signed (alg : string) (key : Key) (content : Payload).

Record Token := {
  alg : string;
  payload : Payload;
  signature : SignaturePart
}.

(** What a cookie value can be:
    - a value [jwt.verify] calls malformed or invalid: not three parts, or
      parts of which [jws.decode] makes no token (a header that is not
      JSON, a character outside base64url);
    - three parts with a header whose [typ] is [JWT] and a payload that is
      not JSON: [jws.decode] calls [JSON.parse] on the payload, and
      [jwt.verify] throws on the [SyntaxError] it catches from it;
      [message] is the text of that error;
    - a token that decodes. *)
Inductive Credential :=
| Opaque (raw : string)
| BadPayload (message : string)
| Jws (token : Token).

#[global] Instance Payload_eq_dec : EqDecision Payload.
Proof. solve_decision. Defined.

#[global] Instance Key_eq_dec : EqDecision Key.
Proof. solve_decision. Defined.

(** [!jwtToken] is true for a missing cookie and for the empty string. *)
Definition truthy (jwtToken : option Credential) : bool :=
  match jwtToken with
  | None => false
  | Some (Opaque raw) => negb (String.eqb raw "")
  | Some (BadPayload _) => true
  | Some (Jws _) => true
  end.

Definition HS_ALGS : list string := ["HS256"; "HS384"; "HS512"].
Definition RSA_KEY_ALGS : list string := ["RS256"; "RS384"; "RS512"].

(** The algorithms accepted when the caller passes no [algorithms] option:
    chosen by the kind of key. *)
Definition default_algorithms (secretOrPublicKey : Key) : list string :=
  match secretOrPublicKey with
  | Secret _ => HS_ALGS
  | RsaPublicKey _ => RSA_KEY_ALGS
  end.

Definition allowed_algorithms (secretOrPublicKey : Key)
    (algorithms : option (list string)) : list string :=
  default (default_algorithms secretOrPublicKey) algorithms.

(** [Array.prototype.includes] on an array of strings. *)
Definition includes (l : list string) (x : string) : bool :=
  existsb (String.eqb x) l.

(** An HMAC algorithm needs a secret, a public-key algorithm a public key. *)
Definition key_fits (header_alg : string) (secretOrPublicKey : Key) : bool :=
  match secretOrPublicKey with
  | Secret _ =>
      negb (String.prefix "RS" header_alg || String.prefix "PS" header_alg
            || String.prefix "ES" header_alg)
  | RsaPublicKey _ => negb (String.prefix "HS" header_alg)
  end.

Definition key_mismatch_message (header_alg : string) : string :=
  if String.prefix "HS" header_alg
  then "secretOrPublicKey must be a symmetric key when using " +:+ header_alg
  else "secretOrPublicKey must be an asymmetric key when using " +:+ header_alg.

(** [jws.verify]: the signature check itself. *)
Definition jws_verify (token : Token) (secretOrPublicKey : Key) : bool :=
  match signature token with
  | Signed a k content =>
      String.eqb a (alg token)
      && bool_decide (k = secretOrPublicKey)
      && bool_decide (content = payload token)
  | Unsigned | Garbage _ => false
  end.

(** [jwt.verify(jwtString, secretOrPublicKey, { algorithms })] at clock
    time [clockTimestamp] (seconds). *)
Definition verify (clockTimestamp : Z) (jwtString : Credential)
    (secretOrPublicKey : Key) (algorithms : option (list string))
  : JS.Exn + Payload :=
  match jwtString with
  | Opaque raw =>
      if String.eqb raw ""
      then inl (JS.JsonWebTokenError "jwt must be provided")
      else inl (JS.JsonWebTokenError "jwt malformed")
  | BadPayload message => inl (JS.SyntaxError message)
  | Jws token =>
      match signature token with
      | Unsigned => inl (JS.JsonWebTokenError "jwt signature is required")
      | _ =>
          if negb (includes (allowed_algorithms secretOrPublicKey algorithms) (alg token))
          then inl (JS.JsonWebTokenError "invalid algorithm")
          else if negb (key_fits (alg token) secretOrPublicKey)
          then inl (JS.JsonWebTokenError (key_mismatch_message (alg token)))
          else if negb (jws_verify token secretOrPublicKey)
          then inl (JS.JsonWebTokenError "invalid signature")
          else
            match exp (payload token) with
            | Some e =>
                if e <=? clockTimestamp
                then inl (JS.TokenExpiredError "jwt expired")
                else inr (payload token)
            | None => inr (payload token)
            end
      end
  end.

(** The signature step of [verify] as one test: the header algorithm is an
    accepted one, fits the key, and the signature verifies. *)
Definition signature_verifies (token : Token) (secretOrPublicKey : Key)
    (algorithms : option (list string)) : bool :=
  includes (allowed_algorithms secretOrPublicKey algorithms) (alg token)
  && key_fits (alg token) secretOrPublicKey
  && jws_verify token secretOrPublicKey.

(** The expiry step of [verify]: the [exp] claim is not after the clock. *)
Definition expired (clockTimestamp : Z) (token : Token) : bool :=
  match exp (payload token) with
  | Some e => e <=? clockTimestamp
  | None => false
  end.

End Jwt.

(** ** The Wiki.js database, as the [pg] pool presents it *)

Module Pg.

Record UserRow := { u_id : Z; u_email : string }.
Record UserGroupRow := { ug_userId : Z; ug_groupId : Z }.
Record GroupRow := { g_id : Z; g_name : string }.

Record Database := {
  users : list UserRow;
  userGroups : list UserGroupRow;
  groups : list GroupRow
}.

(** A pool: the tables, and for each query of the request (counted from 0)
    the error it is rejected with, if the store fails at that moment. *)
Record Pool := {
  tables : Database;
  fault : nat → option string
}.

Record MembershipRow := { user_id : Z; user_email : string; group_name : string }.

(** SELECT u.id, u.email, g.name FROM users u
      JOIN userGroups ug ON u.id = ug.userId
      JOIN groups g ON ug.groupId = g.id
    WHERE u.id = $1 AND (g.name = $2 OR g.name = 'Administrators')
    LIMIT 1 *)
Definition select_membership (db : Database) (p1 : Z) (p2 : string)
  : list MembershipRow :=
  take 1
    (u ← users db;
     ug ← userGroups db;
     g ← groups db;
     if (u_id u =? ug_userId ug) && (ug_groupId ug =? g_id g)
        && (u_id u =? p1)
        && (String.eqb (g_name g) p2 || String.eqb (g_name g) "Administrators")
     then [ {| user_id := u_id u; user_email := u_email u; group_name := g_name g |} ]
     else []).

(** The names of the groups of a user: the join of the query above
    without its condition on the group name. *)
Definition memberships (db : Database) (p1 : Z) : list string :=
  u ← users db;
  ug ← userGroups db;
  g ← groups db;
  if (u_id u =? ug_userId ug) && (ug_groupId ug =? g_id g) && (u_id u =? p1)
  then [g_name g] else [].

(** SELECT u.email FROM users u WHERE u.id = $1 *)
Definition select_user (db : Database) (p1 : Z) : list string :=
  u ← users db;
  if u_id u =? p1 then [u_email u] else [].

(** [await pool.query(text, values)]: counts the query, and either throws
    the store's error or returns the rows. *)
Definition query {Row} (pool : Pool) (rows : Database → list Row) : M (list Row) :=
  λ st,
    let st' := {| console := console st; queries := S (queries st) |} in
    match fault pool (queries st) with
    | Some msg => (inl (JS.StoreError msg), st')
    | None => (inr (rows (tables pool)), st')
    end.

End Pg.

(** ** Express: requests and route matching

    The path of a request is matched as it was received.  A string pattern
    such as [/auth/:groupName/:assetPath] is matched without regard to
    letter case and with an optional trailing slash, and a named parameter
    matches one non-empty path segment; a regular expression is matched as
    it is written.  What a parameter or a group captured is then decoded
    with [decodeURIComponent]; when that throws, the request fails with
    status 400 and no later route is tried. *)

Module Express.

(** [path] is [req.path]: the path of the URL of the request, without the
    query string. *)
Record Request := {
  path : string;
  cookies : gmap string Jwt.Credential
}.

(** What matching a route against a path gives: no match, a match one of
    whose values [decode_param] could not decode, or the parameters. *)
Inductive Match (A : Type) : Type :=
| NoMatch
| BadParam (val : string)
| Matched (params : A).

Arguments NoMatch {A}.
Arguments BadParam {A} val.
Arguments Matched {A} params.

(** [decode_param(val)], and what follows it when it does not throw. *)
Definition decode_param {A} (val : string) (k : string → Match A) : Match A :=
  match JS.decodeURIComponent val with
  | Some decoded => k decoded
  | None => BadParam val
  end.

Definition slash : Ascii.ascii := Ascii.ascii_of_nat 47.
Definition line_feed : Ascii.ascii := Ascii.ascii_of_nat 10.
Definition carriage_return : Ascii.ascii := Ascii.ascii_of_nat 13.

(** The characters before the first slash, and the rest from that slash on:
    what [[^\/]+] consumes at the start of a string. *)
Fixpoint segment (s : string) : string * string :=
  match s with
  | EmptyString => (EmptyString, EmptyString)
  | String c rest =>
      if Ascii.eqb c slash then (EmptyString, s)
      else let (seg, tail) := segment rest in (String c seg, tail)
  end.

Definition lower (c : Ascii.ascii) : Ascii.ascii :=
  let n := Ascii.nat_of_ascii c in
  if (65 <=? n)%nat && (n <=? 90)%nat then Ascii.ascii_of_nat (n + 32) else c.

(** Removes the literal [literal] from the start of [s]; [ci] says whether
    letter case is ignored. *)
Fixpoint strip (ci : bool) (literal s : string) : option string :=
  match literal, s with
  | EmptyString, _ => Some s
  | String a literal', String b s' =>
      if (if ci then Ascii.eqb (lower a) (lower b) else Ascii.eqb a b)
      then strip ci literal' s'
      else None
  | String _ _, EmptyString => None
  end.

(** No slash occurs in [s]: [s] is within one path segment. *)
Fixpoint slash_free (s : string) : bool :=
  match s with
  | EmptyString => true
  | String c rest => negb (Ascii.eqb c slash) && slash_free rest
  end.

(** No [%] occurs in [s]: [s] holds no escape. *)
Fixpoint unescaped (s : string) : bool :=
  match s with
  | EmptyString => true
  | String c rest => negb (Ascii.eqb c JS.percent) && unescaped rest
  end.

(** [.] of a regular expression: any character but a line terminator. *)
Fixpoint no_line_terminator (s : string) : bool :=
  match s with
  | EmptyString => true
  | String c rest =>
      negb (Ascii.eqb c line_feed) && negb (Ascii.eqb c carriage_return)
      && no_line_terminator rest
  end.

Definition is_empty (s : string) : bool :=
  match s with
  | EmptyString => true
  | String _ _ => false
  end.

(** The end of a string pattern: nothing, or one trailing slash. *)
Definition at_end (s : string) : bool :=
  match s with
  | EmptyString => true
  | String c EmptyString => Ascii.eqb c slash
  | String _ (String _ _) => false
  end.

(** [req.params] of the two routes of the production service. *)
Record Params := { groupName : string; assetPath : option string }.

(** What the pattern ['/auth/:groupName/:assetPath'] captures. *)
Definition auth_file_pattern (p : string) : option (string * string) :=
  match strip true "/auth/" p with
  | None => None
  | Some rest =>
      let (g, after_group) := segment rest in
      match after_group with
      | String _ rest' =>
          let (a, after_asset) := segment rest' in
          if is_empty g || is_empty a || negb (at_end after_asset) then None
          else Some (g, a)
      | EmptyString => None
      end
  end.

(** What the pattern ['/auth/:groupName'] captures. *)
Definition auth_dir_pattern (p : string) : option string :=
  match strip true "/auth/" p with
  | None => None
  | Some rest =>
      let (g, after_group) := segment rest in
      if is_empty g || negb (at_end after_group) then None
      else Some g
  end.

(** ['/auth/:groupName/:assetPath'] *)
Definition match_auth_file (p : string) : Match Params :=
  match auth_file_pattern p with
  | None => NoMatch
  | Some (g, a) =>
      decode_param g (λ groupName,
        decode_param a (λ assetPath,
          Matched {| groupName := groupName; assetPath := Some assetPath |}))
  end.

(** ['/auth/:groupName'] *)
Definition match_auth_dir (p : string) : Match Params :=
  match auth_dir_pattern p with
  | None => NoMatch
  | Some g =>
      decode_param g (λ groupName,
        Matched {| groupName := groupName; assetPath := None |})
  end.

(** ['/health'] *)
Definition match_health (p : string) : bool :=
  match strip true "/health" p with
  | Some rest => at_end rest
  | None => false
  end.

(** What [/^\/auth\/([^\/]+)\/(.+)$/] captures. *)
Definition auth_regex_pattern (p : string) : option (string * string) :=
  match strip false "/auth/" p with
  | None => None
  | Some rest =>
      let (g, after_group) := segment rest in
      match after_group with
      | String _ a =>
          if is_empty g || is_empty a || negb (no_line_terminator a) then None
          else Some (g, a)
      | EmptyString => None
      end
  end.

(** [/^\/auth\/([^\/]+)\/(.+)$/]: [req.params[0]] and [req.params[1]]. *)
Definition match_auth_regex (p : string) : Match (string * string) :=
  match auth_regex_pattern p with
  | None => NoMatch
  | Some (g, a) =>
      decode_param g (λ groupName,
        decode_param a (λ assetPath, Matched (groupName, assetPath)))
  end.

(** The answer of Express when no route matches: status 404, and a page
    whose text is [Cannot GET] and the path. *)
Definition not_found (p : string) : M Response :=
  send 404 ("Cannot GET " +:+ p).

(** The answer of Express when [decode_param] throws: status 400, and a
    page whose text starts with the error. *)
Definition bad_request (val : string) : M Response :=
  send 400 ("URIError: Failed to decode param '" +:+ val +:+ "'").

(** *** From the URL to the path

    [req.path] for a request whose target is [url].  Express takes it from
    parseurl, which for a target that starts with a slash cuts at the first
    [?].  [None] stands for the targets this development does not follow:
    one that does not start with a slash, and one with a character that is
    not a printable ASCII character other than [#].  (Node's parser refuses
    a request whose target has a control character or a space; parseurl
    hands a target with [#], U+00A0 or U+FEFF to Node's [url.parse]; clients
    escape the characters outside ASCII.) *)

Definition question_mark : Ascii.ascii := Ascii.ascii_of_nat 63.

Definition followed_char (c : Ascii.ascii) : bool :=
  let n := Ascii.nat_of_ascii c in
  (32 <? n)%nat && (n <? 127)%nat && negb (n =? 35)%nat.

Fixpoint followed (s : string) : bool :=
  match s with
  | EmptyString => true
  | String c rest => followed_char c && followed rest
  end.

(** The characters before the first [?]. *)
Fixpoint before_query (s : string) : string :=
  match s with
  | EmptyString => EmptyString
  | String c rest =>
      if Ascii.eqb c question_mark then EmptyString else String c (before_query rest)
  end.

Definition path_of_url (url : string) : option string :=
  match url with
  | String c _ =>
      if Ascii.eqb c slash && followed url then Some (before_query url) else None
  | EmptyString => None
  end.


End Express.

(** ** asset-auth-service.js *)

Module AssetAuthService.
Import Express.

(** What the process holds while it serves: the clock, the public key that
    [initializeSecret] loaded before the server started to listen, and the
    database pool. *)
Record Env := {
  now : Z;
  now_iso : string;
  JWT_PUBLIC_KEY : Jwt.Key;
  pool : Pg.Pool
}.

(** The options of the call of [jwt.verify]: [{ algorithms: ['RS256'] }]. *)
Definition verify_options : option (list string) := Some ["RS256"].

(** The lookup that follows a verified token ([decoded.id] is truthy). *)
Definition check_membership (env : Env) (decoded : Jwt.Payload) (userId : Z)
    (groupName : string) : M Response :=
  console_log ("  User ID from JWT: " +:+ JS.show_Z userId) ;;'
  console_log ("  Email from JWT: " +:+ JS.show (Jwt.email decoded)) ;;'
  result ←' Pg.query (pool env) (λ db, Pg.select_membership db userId groupName) ;'
  match result with
  | user :: _ =>
      console_log ("  User: " +:+ Pg.user_email user) ;;'
      (if String.eqb (Pg.group_name user) "Administrators"
       then console_log "  Result: ✅ ALLOWED (Administrator - full access)"
       else console_log ("  Result: ✅ ALLOWED (in group " +:+ JS.quoted groupName +:+ ")")) ;;'
      send 200 "OK"
  | [] =>
      userCheck ←' Pg.query (pool env) (λ db, Pg.select_user db userId) ;'
      match userCheck with
      | found :: _ =>
          console_log ("  User: " +:+ found) ;;'
          console_log ("  Result: ❌ DENIED (not in group " +:+ JS.quoted groupName
                       +:+ " or Administrators)") ;;'
          send 403 ("Not in group " +:+ JS.quoted groupName +:+ " or Administrators")
      | [] =>
          console_log "  Result: ❌ DENIED (user not found)" ;;'
          send 403 "User not found"
      end
  end.

(** The [catch] block. *)
Definition on_error (err : JS.Exn) : M Response :=
  if String.eqb (JS.name err) "JsonWebTokenError" then
    console_log ("  Result: ❌ DENIED (JWT verification failed: " +:+ JS.message err +:+ ")") ;;'
    send 403 "Invalid JWT signature"
  else if String.eqb (JS.name err) "TokenExpiredError" then
    console_log "  Result: ❌ DENIED (JWT expired)" ;;'
    send 403 "JWT expired"
  else
    console_error ("  Result: ❌ ERROR: " +:+ JS.message err) ;;'
    send 500 "Server error".

Definition authenticateRequest (env : Env) (params : Params) (req : Request)
  : M Response :=
  let groupName := groupName params in
  let assetPath := default "" (assetPath params) in
  let jwtToken := cookies req !! "jwt" in
  let no_token : M Response :=
    console_log "  Result: ❌ DENIED (no JWT token)" ;;'
    send 403 "No JWT token" in
  console_log ("[" +:+ now_iso env +:+ "] AUTH REQUEST:") ;;'
  console_log ("  Group: " +:+ groupName) ;;'
  console_log ("  Asset: " +:+ assetPath) ;;'
  match jwtToken with
  | None => no_token
  | Some jwtString =>
      if negb (Jwt.truthy jwtToken) then no_token
      else
        try_catch
          (decoded ←' lift (Jwt.verify (now env) jwtString (JWT_PUBLIC_KEY env)
                              verify_options) ;'
           match Jwt.id decoded with
           | Some userId =>
               if userId =? 0 then
                 console_log "  Result: ❌ DENIED (invalid JWT payload)" ;;'
                 send 403 "Invalid JWT payload"
               else check_membership env decoded userId groupName
           | None =>
               console_log "  Result: ❌ DENIED (invalid JWT payload)" ;;'
               send 403 "Invalid JWT payload"
           end)
          on_error
  end.

(** The first of the two routes of [authenticateRequest] that matches, with
    its parameters; a value that does not decode ends the search. *)
Definition route (p : string) : Match Params :=
  match match_auth_file p with
  | NoMatch => match_auth_dir p
  | found => found
  end.

(** The routes, in the order they are registered. *)
Definition app (env : Env) (req : Request) : M Response :=
  match route (path req) with
  | Matched params => authenticateRequest env params req
  | BadParam val => bad_request val
  | NoMatch =>
      if match_health (path req) then send 200 "OK"
      else not_found (path req)
  end.

End AssetAuthService.

(** ** mock-auth-service.js (tests/setup-test-environment.sh) *)

Module MockAuthService.
Import Express.

Record Env := {
  now : Z;
  now_iso : string
}.

Definition JWT_SECRET : Jwt.Key := Jwt.Secret "test-secret-key".

(** [jwt.verify(jwtToken, JWT_SECRET)] is called without options. *)
Definition verify_options : option (list string) := None.

(** [decoded.groups.includes(x)]: a [TypeError] when the token has no
    [groups] claim. *)
Definition groups_includes (decoded : Jwt.Payload) (x : string) : M bool :=
  match Jwt.groups decoded with
  | Some l => ret (Jwt.includes l x)
  | None => throw (JS.TypeError "Cannot read properties of undefined (reading 'includes')")
  end.

Definition handler (env : Env) (groupName assetPath : string) (req : Request)
  : M Response :=
  let jwtToken := cookies req !! "jwt" in
  let no_token : M Response :=
    console_log "  Result: ❌ DENIED (no JWT)" ;;'
    send 403 "No JWT" in
  console_log ("[" +:+ now_iso env +:+ "] AUTH REQUEST:") ;;'
  console_log ("  Group: " +:+ groupName) ;;'
  console_log ("  Asset: " +:+ assetPath) ;;'
  match jwtToken with
  | None => no_token
  | Some jwtString =>
      if negb (Jwt.truthy jwtToken) then no_token
      else
        try_catch
          (decoded ←' lift (Jwt.verify (now env) jwtString JWT_SECRET verify_options) ;'
           console_log ("  User: " +:+ JS.show (Jwt.email decoded)) ;;'
           console_log ("  Groups: " +:+ JS.stringify (Jwt.groups decoded)) ;;'
           is_admin ←' groups_includes decoded "Administrators" ;'
           in_group ←' (if is_admin then ret true else groups_includes decoded groupName) ;'
           if in_group then
             is_admin' ←' groups_includes decoded "Administrators" ;'
             (if is_admin'
              then console_log "  Result: ✅ ALLOWED (Administrator)"
              else console_log ("  Result: ✅ ALLOWED (in group " +:+ JS.quoted groupName +:+ ")")) ;;'
             send 200 "OK"
           else
             console_log ("  Result: ❌ DENIED (not in group " +:+ JS.quoted groupName +:+ ")") ;;'
             send 403 "Access denied")
          (λ err,
             console_log ("  Result: ❌ DENIED (invalid JWT: " +:+ JS.message err +:+ ")") ;;'
             send 403 "Invalid JWT")
  end.

Definition app (env : Env) (req : Request) : M Response :=
  match match_auth_regex (path req) with
  | Matched (groupName, assetPath) => handler env groupName assetPath req
  | BadParam val => bad_request val
  | NoMatch =>
      if match_health (path req) then send 200 "OK"
      else not_found (path req)
  end.

End MockAuthService.

(** ** The two deployments side by side

    A deployment is one of the two services together with what Express has
    extracted from the path.  The definitions below name, for either
    deployment, the inputs of its decision. *)

Inductive Deployment :=
| DbBacked (env : AssetAuthService.Env) (params : Express.Params)
| InlineClaims (env : MockAuthService.Env) (groupName assetPath : string).

(** The response of the handler of the deployment. *)
Definition decision (d : Deployment) (req : Express.Request) : Response :=
  match d with
  | DbBacked env params => respond (AssetAuthService.authenticateRequest env params req)
  | InlineClaims env groupName assetPath =>
      respond (MockAuthService.handler env groupName assetPath req)
  end.

Definition required_group (d : Deployment) : string :=
  match d with
  | DbBacked _ params => Express.groupName params
  | InlineClaims _ groupName _ => groupName
  end.

Definition clock (d : Deployment) : Z :=
  match d with
  | DbBacked env _ => AssetAuthService.now env
  | InlineClaims env _ _ => MockAuthService.now env
  end.

Definition verification_key (d : Deployment) : Jwt.Key :=
  match d with
  | DbBacked env _ => AssetAuthService.JWT_PUBLIC_KEY env
  | InlineClaims _ _ _ => MockAuthService.JWT_SECRET
  end.

Definition verification_options (d : Deployment) : option (list string) :=
  match d with
  | DbBacked _ _ => AssetAuthService.verify_options
  | InlineClaims _ _ _ => MockAuthService.verify_options
  end.

(** The algorithms the verifier of the deployment accepts. *)
Definition accepted_algorithms (d : Deployment) : list string :=
  Jwt.allowed_algorithms (verification_key d) (verification_options d).

(** The call of [jwt.verify] the deployment makes on a credential. *)
Definition verification (d : Deployment) (jwtString : Jwt.Credential)
  : JS.Exn + Jwt.Payload :=
  Jwt.verify (clock d) jwtString (verification_key d) (verification_options d).

(** A credential that is missing, malformed, expired, or whose signature does
    not verify. *)
Definition rejected (d : Deployment) (jwtToken : option Jwt.Credential) : bool :=
  match jwtToken with
  | None => true
  | Some (Jwt.Opaque _) => true
  | Some (Jwt.BadPayload _) => true
  | Some (Jwt.Jws token) =>
      negb (Jwt.signature_verifies token (verification_key d) (verification_options d))
      || Jwt.expired (clock d) token
  end.

(** The error the store answers the [n]-th query of the request with, if any;
    the inline-claims deployment has no store. *)
Definition store_fault (d : Deployment) (n : nat) : option string :=
  match d with
  | DbBacked env _ => Pg.fault (AssetAuthService.pool env) n
  | InlineClaims _ _ _ => None
  end.

(** The membership set of the subject of a verified payload: the groups of
    the user [decoded.id] in the database, or the [groups] claim.  There is
    none when the payload names no subject ([id] missing or 0) or, for the
    inline-claims deployment, has no [groups] claim. *)
Definition resolved_membership (d : Deployment) (decoded : Jwt.Payload)
  : option (list string) :=
  match d with
  | DbBacked env _ =>
      match Jwt.id decoded with
      | Some userId =>
          if userId =? 0 then None
          else Some (Pg.memberships (Pg.tables (AssetAuthService.pool env)) userId)
      | None => None
      end
  | InlineClaims _ _ _ => Jwt.groups decoded
  end.

(** ** The responses without the console

    The response of either handler as a plain function of its inputs.  The
    lemmas [authenticateRequest_response] and [handler_response] below show
    that the handlers answer exactly this. *)

Definition on_error_response (err : JS.Exn) : Response :=
  if String.eqb (JS.name err) "JsonWebTokenError"
  then {| status := 403; body := "Invalid JWT signature" |}
  else if String.eqb (JS.name err) "TokenExpiredError"
  then {| status := 403; body := "JWT expired" |}
  else {| status := 500; body := "Server error" |}.

Definition membership_response (env : AssetAuthService.Env) (userId : Z)
    (groupName : string) : Response :=
  let p := AssetAuthService.pool env in
  match Pg.fault p 0 with
  | Some msg => on_error_response (JS.StoreError msg)
  | None =>
      match Pg.select_membership (Pg.tables p) userId groupName with
      | _ :: _ => {| status := 200; body := "OK" |}
      | [] =>
          match Pg.fault p 1 with
          | Some msg => on_error_response (JS.StoreError msg)
          | None =>
              match Pg.select_user (Pg.tables p) userId with
              | _ :: _ =>
                  {| status := 403;
                     body := "Not in group " +:+ JS.quoted groupName +:+ " or Administrators" |}
              | [] => {| status := 403; body := "User not found" |}
              end
          end
      end
  end.

Definition db_backed_response (env : AssetAuthService.Env) (params : Express.Params)
    (req : Express.Request) : Response :=
  match Express.cookies req !! "jwt" with
  | None => {| status := 403; body := "No JWT token" |}
  | Some jwtString =>
      if negb (Jwt.truthy (Some jwtString))
      then {| status := 403; body := "No JWT token" |}
      else
        match verification (DbBacked env params) jwtString with
        | inl err => on_error_response err
        | inr decoded =>
            match Jwt.id decoded with
            | Some userId =>
                if userId =? 0 then {| status := 403; body := "Invalid JWT payload" |}
                else membership_response env userId (Express.groupName params)
            | None => {| status := 403; body := "Invalid JWT payload" |}
            end
        end
  end.

Definition inline_claims_response (env : MockAuthService.Env) (groupName assetPath : string)
    (req : Express.Request) : Response :=
  match Express.cookies req !! "jwt" with
  | None => {| status := 403; body := "No JWT" |}
  | Some jwtString =>
      if negb (Jwt.truthy (Some jwtString))
      then {| status := 403; body := "No JWT" |}
      else
        match verification (InlineClaims env groupName assetPath) jwtString with
        | inl _ => {| status := 403; body := "Invalid JWT" |}
        | inr decoded =>
            match Jwt.groups decoded with
            | None => {| status := 403; body := "Invalid JWT" |}
            | Some l =>
                if Jwt.includes l "Administrators" || Jwt.includes l groupName
                then {| status := 200; body := "OK" |}
                else {| status := 403; body := "Access denied" |}
            end
        end
  end.

(** The bodies the handler of a deployment sends with status 403, one per
    reason of denial. *)
Definition denial_messages (d : Deployment) : list string :=
  match d with
  | DbBacked _ params =>
      [ "No JWT token"; "Invalid JWT payload"; "Invalid JWT signature"; "JWT expired";
        "Not in group " +:+ JS.quoted (Express.groupName params) +:+ " or Administrators";
        "User not found" ]
  | InlineClaims _ _ _ => [ "No JWT"; "Invalid JWT"; "Access denied" ]
  end.

(** ** Concrete scenarios

    The users of the test environment ([generate-token.js]) as tokens, and a
    small Wiki.js database with the same people in it. *)

Module Scenario.

Definition get (p : string) (jwtToken : option Jwt.Credential) : Express.Request :=
  {| Express.path := p;
     Express.cookies := match jwtToken with
                        | Some c => {[ "jwt" := c ]}
                        | None => ∅
                        end |}.

Definition noon : Z := 1764072000.

(** The payload [generate-token.js] signs for a user, issued at [issued]. *)
Definition test_claims (mail : string) (member_of : list string) (issued : Z)
  : Jwt.Payload :=
  {| Jwt.id := None; Jwt.email := Some mail; Jwt.groups := Some member_of;
     Jwt.iat := Some issued; Jwt.exp := Some (issued + 3600) |}.

(** A token over [claims] with header algorithm [a], signed for [key]. *)
Definition signed (a : string) (key : Jwt.Key) (claims : Jwt.Payload) : Jwt.Credential :=
  Jwt.Jws {| Jwt.alg := a; Jwt.payload := claims;
             Jwt.signature := Jwt.Signed a key claims |}.

Definition test_token (a mail : string) (member_of : list string) : Jwt.Credential :=
  signed a MockAuthService.JWT_SECRET (test_claims mail member_of noon).

Definition admin_token : Jwt.Credential :=
  test_token "HS256" "admin@test.com" ["Administrators"].
Definition manager_token : Jwt.Credential :=
  test_token "HS256" "manager@test.com" ["managers"].
Definition dev_token : Jwt.Credential :=
  test_token "HS256" "dev@test.com" ["developers"; "managers"].

Definition mock_env : MockAuthService.Env :=
  {| MockAuthService.now := noon + 60;
     MockAuthService.now_iso := "2025-11-25T12:01:00.000Z" |}.

(** The production side: a key, a database and the tokens Wiki.js issues. *)
Definition wiki_key : Jwt.Key := Jwt.RsaPublicKey "wiki.js certs.public".

Definition wiki_db : Pg.Database :=
  {| Pg.users := [ {| Pg.u_id := 1; Pg.u_email := "admin@test.com" |};
                   {| Pg.u_id := 3; Pg.u_email := "manager@test.com" |};
                   {| Pg.u_id := 4; Pg.u_email := "dev@test.com" |} ];
     Pg.userGroups := [ {| Pg.ug_userId := 1; Pg.ug_groupId := 1 |};
                        {| Pg.ug_userId := 3; Pg.ug_groupId := 5 |};
                        {| Pg.ug_userId := 4; Pg.ug_groupId := 6 |} ];
     Pg.groups := [ {| Pg.g_id := 1; Pg.g_name := "Administrators" |};
                    {| Pg.g_id := 5; Pg.g_name := "managers" |};
                    {| Pg.g_id := 6; Pg.g_name := "dev" |} ] |}.

Definition wiki_claims (userId : Z) (mail : string) (expires : Z) : Jwt.Payload :=
  {| Jwt.id := Some userId; Jwt.email := Some mail; Jwt.groups := None;
     Jwt.iat := Some noon; Jwt.exp := Some expires |}.

Definition wiki_token (userId : Z) (mail : string) : Jwt.Credential :=
  signed "RS256" wiki_key (wiki_claims userId mail (noon + 1800)).

Definition wiki_env : AssetAuthService.Env :=
  {| AssetAuthService.now := noon + 60;
     AssetAuthService.now_iso := "2025-11-25T12:01:00.000Z";
     AssetAuthService.JWT_PUBLIC_KEY := wiki_key;
     AssetAuthService.pool := {| Pg.tables := wiki_db; Pg.fault := λ _, None |} |}.

(** The same service while the database refuses connections. *)
Definition wiki_env_store_down : AssetAuthService.Env :=
  {| AssetAuthService.now := noon + 60;
     AssetAuthService.now_iso := "2025-11-25T12:01:00.000Z";
     AssetAuthService.JWT_PUBLIC_KEY := wiki_key;
     AssetAuthService.pool :=
       {| Pg.tables := wiki_db; Pg.fault := λ _, Some "connect ECONNREFUSED" |} |}.

Definition file_params (g a : string) : Express.Params :=
  {| Express.groupName := g; Express.assetPath := Some a |}.

End Scenario.

(** ** generate-token.js (tests/setup-test-environment.sh)

    The token generator of the test environment.  [jwt.sign] with a secret
    and no options signs with HS256. *)

Module GenerateToken.

Record User := { email : string; groups : list string }.

Definition users : gmap string User :=
  list_to_map
    [ ("admin", {| email := "admin@test.com"; groups := ["Administrators"] |});
      ("manager", {| email := "manager@test.com"; groups := ["managers"] |});
      ("dev", {| email := "dev@test.com"; groups := ["developers"; "managers"] |});
      ("finance", {| email := "finance@test.com"; groups := ["finance"] |});
      ("guest", {| email := "guest@test.com"; groups := [] |}) ].

(** The names [users[userType]] also finds, in [Object.prototype]: the value
    is truthy, and has no [email] and no [groups]. *)
Definition inherited : list string :=
  [ "constructor"; "__defineGetter__"; "__defineSetter__"; "hasOwnProperty";
    "__lookupGetter__"; "__lookupSetter__"; "isPrototypeOf"; "propertyIsEnumerable";
    "toString"; "valueOf"; "__proto__"; "toLocaleString" ].

(** [jwt.sign(payload, secret)]. *)
Definition sign (payload : Jwt.Payload) (secret : Jwt.Key) : Jwt.Credential :=
  Jwt.Jws {| Jwt.alg := "HS256"; Jwt.payload := payload;
             Jwt.signature := Jwt.Signed "HS256" secret payload |}.

(** What the process does: it prints a token, or prints the usage on the
    error stream and exits with a code. *)
Inductive Outcome :=
| Printed (token : Jwt.Credential)
| Exited (code : Z) (stderr : list string).

(** The script, run with [process.argv[2] = userType].  The clock is read
    twice, for [iat] and for [exp]: [seconds_iat] and [seconds_exp] are
    the two values of [Math.floor(Date.now() / 1000)]. *)
Definition main (seconds_iat seconds_exp : Z) (userType : option string) : Outcome :=
  let usage :=
    Exited 1 [ "Usage: ./generate-token.js <user>";
               "Users: admin, manager, dev, finance, guest" ] in
  let print (mail : option string) (member_of : option (list string)) :=
    Printed (sign {| Jwt.id := None; Jwt.email := mail; Jwt.groups := member_of;
                     Jwt.iat := Some seconds_iat;
                     Jwt.exp := Some (seconds_exp + 3600) |}
               MockAuthService.JWT_SECRET) in
  match userType with
  | None => usage
  | Some name =>
      if String.eqb name "" then usage
      else
        match users !! name with
        | Some user => print (Some (email user)) (Some (groups user))
        | None =>
            if Jwt.includes inherited name then print None None else usage
        end
  end.

End GenerateToken.

(** ** What a request costs and what it leaves on the console *)

(** The number of queries a handler has sent to the store when it returns. *)
Definition queries_sent (m : M Response) : nat := queries (m initial_state).2.

(** The last line a handler wrote to the console. *)
Definition last_line (m : M Response) : option string := last (journal m).

(** ** Startup of asset-auth-service.js: [initializeSecret], [startServer] *)

Module Startup.

#[local] Unset Elimination Schemes.

(** What [JSON.parse] returns. *)
Inductive Json :=
| JNull
| JBool (b : bool)
| JNumber (n : Z)
| JString (s : string)
| JArray (items : list Json)
| JObject (members : list (string * Json)).

#[local] Set Elimination Schemes.

(** The member [name] of an object: of members with the same name,
    [JSON.parse] keeps the last. *)
Fixpoint member (name : string) (members : list (string * Json)) : option Json :=
  match members with
  | [] => None
  | (k, v) :: rest =>
      match member name rest with
      | Some later => Some later
      | None => if String.eqb k name then Some v else None
      end
  end.

(** [certsData.public]: a [TypeError] on [null], [undefined] on a value
    that is no object or has no such member. *)
Definition public (certsData : Json) : string + option Json :=
  match certsData with
  | JNull => inl "Cannot read properties of null (reading 'public')"
  | JObject members => inr (member "public" members)
  | JBool _ | JNumber _ | JString _ | JArray _ => inr None
  end.

(** A row of [settings]: its key, and what [JSON.parse] makes of the text of
    its value, or the message of the [SyntaxError] it throws. *)
Record SettingsRow := { key : string; value : string + Json }.

(** The database at startup: the rows of [settings], and the error the
    query is rejected with when the store fails. *)
Record Store := { settings : list SettingsRow; fault : option string }.

(** SELECT value::text FROM settings WHERE key = 'certs' *)
Definition select_certs (store : Store) : list SettingsRow :=
  filter (λ row, key row = "certs") (settings store).

(** [initializeSecret], up to its [catch]: the value it stores in
    [JWT_PUBLIC_KEY], or the message of the error it caught. *)
Definition load_key (store : Store) : string + option Json :=
  match fault store with
  | Some msg => inl msg
  | None =>
      match select_certs store with
      | [] => inl "certs not found in database"
      | row :: _ =>
          match value row with
          | inl msg => inl msg
          | inr certsData => public certsData
          end
      end
  end.

(** The process after [startServer]: it has exited, or it listens. *)
Inductive Process :=
| Exited (code : Z) (console : list string)
| Listening (port : Z) (JWT_PUBLIC_KEY : option Json) (console : list string).

Definition PORT : Z := 3002.

Definition banner : list string :=
  [ "";
    "==========================================";
    "  Wiki.js Asset Authentication Service";
    "==========================================";
    "  Listening on: http://localhost:" +:+ JS.show_Z PORT;
    "  Database: wikijs@localhost:5432";
    "  JWT Verification: ENABLED ✓";
    "";
    "  Folder → Group Mapping:";
    "    /secure-assets/managers/* → " +:+ JS.quoted "managers" +:+ " group";
    "    /secure-assets/vacation/* → " +:+ JS.quoted "vacation" +:+ " group";
    "    /secure-assets/{GROUP}/* → " +:+ JS.quoted "{GROUP}" +:+ " group";
    "";
    "  Press Ctrl+C to stop";
    "==========================================";
    "" ].

(** [startServer]: [initializeSecret] ends the process with code 1 in its
    [catch]; otherwise the server listens and prints the banner. *)
Definition startServer (store : Store) : Process :=
  match load_key store with
  | inl msg => Exited 1 [ "❌ Failed to load JWT public key: " +:+ msg ]
  | inr loaded =>
      Listening PORT loaded ("✓ JWT public key loaded from database" :: banner)
  end.

End Startup.

(** ** secure-content.js: client-side encryption

    The module calls the Web platform for the cryptography and the text
    codecs; a [Platform] holds those functions.  What the module itself does
    is the layout of the blob: salt, IV and ciphertext in one byte array,
    in base64. *)

Module SecureContent.

Local Open Scope list_scope.

Definition bytes : Type := list Byte.byte.

#[global] Instance byte_eq_dec : EqDecision Byte.byte := Byte.byte_eq_dec.

(** [CONFIG] *)
Definition keyLength : N := 256.
Definition ivLength : nat := 12.
Definition saltLength : nat := 16.
Definition iterations : N := 310000.
Definition tagLength : N := 128.

Record Platform := {
  CryptoKey : Type;
  (** [new TextEncoder().encode(s)] and [new TextDecoder().decode(b)] *)
  encode : string → bytes;
  decode : bytes → string;
  (** [btoa(String.fromCharCode(...b))]; [None] when the call of
      [String.fromCharCode] with one argument for each byte throws a
      [RangeError], as engines do beyond the number of arguments they take *)
  btoa : bytes → option string;
  (** [Uint8Array.from(atob(s), c => c.charCodeAt(0))]; [None] when [atob]
      throws *)
  atob : string → option bytes;
  (** [importKey] and [deriveKey] with PBKDF2 and SHA-256: password, salt,
      iterations, length of the key in bits *)
  pbkdf2 : bytes → bytes → N → N → CryptoKey;
  (** [crypto.subtle.encrypt] and [decrypt] with AES-GCM: key, IV, length of
      the tag in bits, data; [None] when [decrypt] rejects *)
  aes_gcm_encrypt : CryptoKey → bytes → N → bytes → bytes;
  aes_gcm_decrypt : CryptoKey → bytes → N → bytes → option bytes
}.

(** What [decrypt] throws. *)
Inductive Thrown :=
| InvalidCharacterError
| Error (message : string).

(** [target.set(source, offset)] on a [Uint8Array]: a [RangeError] ([None])
    when the source does not fit. *)
Definition set (source : bytes) (offset : nat) (target : bytes) : option bytes :=
  if (offset + length source <=? length target)%nat
  then Some (take offset target ++ source ++ drop (offset + length source) target)
  else None.

(** [new Uint8Array(n)] *)
Definition zeros (n : nat) : bytes := replicate n Byte.x00.

Definition deriveKey (pf : Platform) (passphrase : string) (salt : bytes) : CryptoKey pf :=
  pbkdf2 pf (encode pf passphrase) salt iterations keyLength.

(** The byte array [encrypt] builds from the salt, the IV and the
    ciphertext. *)
Definition combine (salt iv ciphertext : bytes) : option bytes :=
  combined ← Some (zeros (length salt + length iv + length ciphertext));
  combined ← set salt 0 combined;
  combined ← set iv (length salt) combined;
  set ciphertext (length salt + length iv) combined.

(** [encrypt(plaintext, passphrase)], where [salt] and [iv] are the arrays
    [crypto.getRandomValues] filled; [None] stands for a [RangeError]. *)
Definition encrypt (pf : Platform) (salt iv : bytes) (plaintext passphrase : string)
  : option string :=
  let key := deriveKey pf passphrase salt in
  let ciphertext := aes_gcm_encrypt pf key iv tagLength (encode pf plaintext) in
  combined ← combine salt iv ciphertext;
  btoa pf combined.

(** [decrypt(blob, passphrase)] *)
Definition decrypt (pf : Platform) (blob passphrase : string) : Thrown + string :=
  match atob pf blob with
  | None => inl InvalidCharacterError
  | Some combined =>
      let salt := take saltLength combined in
      let iv := take ivLength (drop saltLength combined) in
      let ciphertext := drop (saltLength + ivLength) combined in
      let key := deriveKey pf passphrase salt in
      match aes_gcm_decrypt pf key iv tagLength ciphertext with
      | Some plaintext => inr (decode pf plaintext)
      | None => inl (Error "Decryption failed - wrong passphrase or corrupted data")
      end
  end.

(** A platform to run the module on: text is bytes, base64 is the identity,
    a call takes 65535 arguments, the key is the password followed by the
    salt, and the cipher appends a tag of 16 bytes taken from the key and
    the IV, which [decrypt] checks.  It keeps nothing secret. *)
Definition toy_tag (key iv : bytes) : bytes := take 16 (key ++ iv ++ zeros 16).

Definition toy_decrypt (key iv : bytes) (data : bytes) : option bytes :=
  let n := (length data - 16)%nat in
  if (length data <? 16)%nat then None
  else if bool_decide (drop n data = toy_tag key iv) then Some (take n data)
  else None.

Definition toy : Platform :=
  {| CryptoKey := bytes;
     encode := String.list_byte_of_string;
     decode := String.string_of_list_byte;
     btoa := λ b, if (N.of_nat (length b) <=? 65535)%N
                  then Some (String.string_of_list_byte b) else None;
     atob := λ s, Some (String.list_byte_of_string s);
     pbkdf2 := λ password salt _ _, password ++ salt;
     aes_gcm_encrypt := λ key iv _ data, data ++ toy_tag key iv;
     aes_gcm_decrypt := λ key iv _ data, toy_decrypt key iv data |}.

End SecureContent.

(** ** The nginx locations in front of the services

    The location [~ ^/secure-assets/([^/]+)/(.+)$] of the two
    configurations, for a request that nginx has matched with it.  nginx
    matches the location against the URI it has normalised (escapes
    decoded, dot segments resolved, slashes merged, query string removed),
    and [alias] names the file with what the location captured there.  The
    sub-request of [auth_request] goes to [/auth-validate], which matches
    the same pattern against [$request_uri], the target of the request line
    as the client sent it, and passes what that captured to the service. *)

Module Nginx.

Record Request := {
  request_uri : string;                 (** [$request_uri] *)
  location_captures : string * string;  (** [$1] and [$2] of the location *)
  http_cookie : gmap string Jwt.Credential
}.

(** The page nginx makes up for a status; the body stands for its HTML. *)
Definition stock_page (code : Z) : Response :=
  {| status := code; body := JS.show_Z code |}.

(** [(.+)$] at the end of a regular expression of PCRE: one or more
    characters other than a line feed, up to the end of the subject or to a
    line feed that ends it. *)
Fixpoint dot_plus_end (s : string) : option string :=
  match s with
  | EmptyString => None
  | String c rest =>
      if Ascii.eqb c Express.line_feed then None
      else
        match rest with
        | EmptyString => Some (String c EmptyString)
        | String c' rest' =>
            if Ascii.eqb c' Express.line_feed && Express.is_empty rest'
            then Some (String c EmptyString)
            else String c <$> dot_plus_end rest
        end
  end.

(** [^/secure-assets/([^/]+)/(.+)$]: the two captures. *)
Definition secure_assets_pattern (s : string) : option (string * string) :=
  match Express.strip false "/secure-assets/" s with
  | None => None
  | Some rest =>
      let (g, after_group) := Express.segment rest in
      match after_group with
      | String _ a =>
          if Express.is_empty g then None
          else
            match dot_plus_end a with
            | Some a' => Some (g, a')
            | None => None
            end
      | EmptyString => None
      end
  end.

(** [/auth-validate]: [$group_name] and [$asset_path] are empty unless
    [$request_uri] matches the pattern, and the request is passed to
    [http://127.0.0.1:3002/auth/$group_name/$asset_path]. *)
Definition auth_url (r : Request) : string :=
  let (group_name, asset_path) :=
    default (EmptyString, EmptyString) (secure_assets_pattern (request_uri r)) in
  "/auth/" +:+ group_name +:+ "/" +:+ asset_path.

(** [auth_request]: a sub-request answered 2xx lets the request through to
    [content]; 401 and 403 deny with that status; anything else is an error,
    status 500.  [error_page 403 = @auth_error] replaces every 403 of the
    location by the answer of [@auth_error]. *)
Definition auth_request (sub : Response) (auth_error content : Response) : Response :=
  if (200 <=? status sub) && (status sub <? 300) then
    if status content =? 403 then auth_error else content
  else if status sub =? 401 then stock_page 401
  else if status sub =? 403 then auth_error
  else stock_page 500.

(** The secure location: [auth] is the service on port 3002, which gets the
    sub-request with the cookies of the request, and [alias] answers for
    the file [$1/$2] of the aliased directory.  [None] when the URL of the
    sub-request is one that [Express.path_of_url] does not follow. *)
Definition secure_location (auth : Express.Request → Response) (auth_error : Response)
    (alias : string → Response) (r : Request) : option Response :=
  path ← Express.path_of_url (auth_url r);
  Some (auth_request
          (auth {| Express.path := path; Express.cookies := http_cookie r |})
          auth_error
          (alias ((location_captures r).1 +:+ "/" +:+ (location_captures r).2))).

(** The test site of setup-test-environment.sh, in front of the mock. *)
Definition test_site (env : MockAuthService.Env) :=
  secure_location (λ req, respond (MockAuthService.app env req))
    {| status := 403; body := "Access Denied" |}.


(** A directory of regular files, as [alias] serves it. *)
Definition serve (files : gmap string string) (name : string) : Response :=
  match files !! name with
  | Some content => {| status := 200; body := content |}
  | None => stock_page 404
  end.


(** A request for [/secure-assets/g/a] as a client sends it when [g] and
    [a] hold nothing that nginx rewrites (no escape, no dot segment, no
    empty segment, no [?]): the location captures [g] and [a]. *)
Definition get (g a : string) (jwtToken : option Jwt.Credential) : Request :=
  {| request_uri := "/secure-assets/" +:+ g +:+ "/" +:+ a;
     location_captures := (g, a);
     http_cookie := match jwtToken with
                    | Some c => {[ "jwt" := c ]}
                    | None => ∅
                    end |}.

End Nginx.

(** ** tests/automated-test-suite.sh *)

Module TestSuite.

Record Counters := { TOTAL : nat; PASSED : nat; FAILED : nat }.

(** [[[ "$result" == *"$expected"* ]]]: [expected] occurs in [result]. *)
Fixpoint contains (expected result : string) : bool :=
  String.prefix expected result
  || match result with
     | EmptyString => false
     | String _ rest => contains expected rest
     end.

(** The check of [run_test]: [equals] compares the strings, any other
    [check_type] looks for [expected] in [result]. *)
Definition check (result expected check_type : string) : bool :=
  if String.eqb check_type "equals" then String.eqb result expected
  else contains expected result.

(** [run_test], for the output [result] of its command. *)
Definition run_test (result expected check_type : string) (c : Counters) : Counters :=
  if check result expected check_type
  then {| TOTAL := S (TOTAL c); PASSED := S (PASSED c); FAILED := FAILED c |}
  else {| TOTAL := S (TOTAL c); PASSED := PASSED c; FAILED := S (FAILED c) |}.

(** The exit status after the summary. *)
Definition exit_status (c : Counters) : Z :=
  if (FAILED c =? 0)%nat then 0 else 1.

Record Test := { result : string; expected : string; check_type : string }.

Definition run_tests (tests : list Test) : Counters :=
  foldl (λ c t, run_test (result t) (expected t) (check_type t) c)
    {| TOTAL := 0; PASSED := 0; FAILED := 0 |} tests.

(** [$(command)]: the output without its trailing newlines. *)
Fixpoint chomp (output : string) : string :=
  match output with
  | EmptyString => EmptyString
  | String c rest =>
      match chomp rest with
      | EmptyString =>
          if Ascii.eqb c Express.line_feed then EmptyString
          else String c EmptyString
      | kept => String c kept
      end
  end.

(** [echo text > file] *)
Definition echo (text : string) : string := text +:+ String Express.line_feed EmptyString.

(** The files setup-test-environment.sh creates. *)
Definition public_assets : gmap string string :=
  list_to_map [ ("test.txt", echo "Public file - anyone can access");
                ("images/logo.txt", echo "Public image") ].

Definition secure_assets : gmap string string :=
  list_to_map [ ("managers/report.txt", echo "Managers only");
                ("developers/project1/diagram.txt", echo "Developers only (nested)");
                ("finance/budget.txt", echo "Finance only") ].

(** A run of the suite: for the [k]-th test, the two clock readings of
    generate-token.js, the clock reading of the inline [jwt.sign], and the
    state of the mock when it serves the request. *)
Record Run := {
  seconds_iat : nat → Z;
  seconds_exp : nat → Z;
  mock : nat → MockAuthService.Env
}.

(** [TOKEN=$(~/test-assets/generate-token.js name)]: the token, or the
    empty string when the generator prints nothing. *)
Definition TOKEN (run : Run) (k : nat) (name : string) : Jwt.Credential :=
  match GenerateToken.main (seconds_iat run k) (seconds_exp run k) (Some name) with
  | GenerateToken.Printed token => token
  | GenerateToken.Exited _ _ => Jwt.Opaque EmptyString
  end.

(** The spoofed token of test 3: the header and the payload decode to the
    values below, the third part is no signature. *)
Definition SPOOFED_JWT : Jwt.Credential :=
  Jwt.Jws {| Jwt.alg := "HS256";
             Jwt.payload := {| Jwt.id := None; Jwt.email := Some "admin@fake.com";
                               Jwt.groups := Some ["managers"; "Administrators"];
                               Jwt.iat := None; Jwt.exp := None |};
             Jwt.signature := Jwt.Garbage "INVALID_SIGNATURE_SHOULD_BE_REJECTED" |}.

(** The token of test 4, signed with another secret; [jwt.sign] adds [iat]. *)
Definition WRONG_SECRET_JWT (run : Run) (k : nat) : Jwt.Credential :=
  GenerateToken.sign
    {| Jwt.id := None; Jwt.email := Some "attacker@fake.com";
       Jwt.groups := Some ["managers"; "Administrators"];
       Jwt.iat := Some (seconds_iat run k); Jwt.exp := None |}
    (Jwt.Secret "wrong-secret-key-not-the-real-one").

(** [curl -s -H 'Cookie: jwt=...' http://localhost:8080/secure-assets/g/a]
    in test [k], captured by [$(...)].  The URLs of the suite are ones the
    site answers (there is nothing in them that [Express.path_of_url] does
    not follow). *)
Definition curl_secure (run : Run) (k : nat) (g a : string)
    (cookie : option Jwt.Credential) : string :=
  match Nginx.test_site (mock run k) (Nginx.serve secure_assets) (Nginx.get g a cookie) with
  | Some response => chomp (body response)
  | None => EmptyString
  end.

(** [curl -s http://localhost:8080/public-assets/name] *)
Definition curl_public (name : string) : string :=
  chomp (body (Nginx.serve public_assets name)).

(** The tests of the script, in its order. *)
Definition tests (run : Run) : list Test :=
  [ {| result := curl_public "test.txt";
       expected := "Public file - anyone can access"; check_type := "contains" |};
    {| result := curl_secure run 1 "managers" "report.txt" None;
       expected := "Access Denied"; check_type := "contains" |};
    {| result := curl_secure run 2 "managers" "report.txt" (Some SPOOFED_JWT);
       expected := "Access Denied"; check_type := "contains" |};
    {| result := curl_secure run 3 "managers" "report.txt" (Some (WRONG_SECRET_JWT run 3));
       expected := "Access Denied"; check_type := "contains" |};
    {| result := curl_secure run 4 "managers" "report.txt" (Some (TOKEN run 4 "manager"));
       expected := "Managers only"; check_type := "equals" |};
    {| result := curl_secure run 5 "developers" "project1/diagram.txt"
                   (Some (TOKEN run 5 "manager"));
       expected := "Access Denied"; check_type := "equals" |};
    {| result := curl_secure run 6 "developers" "project1/diagram.txt"
                   (Some (TOKEN run 6 "dev"));
       expected := "Developers only (nested)"; check_type := "equals" |};
    {| result := curl_secure run 7 "managers" "report.txt" (Some (TOKEN run 7 "dev"));
       expected := "Managers only"; check_type := "equals" |};
    {| result := curl_secure run 8 "finance" "budget.txt" (Some (TOKEN run 8 "dev"));
       expected := "Access Denied"; check_type := "equals" |};
    {| result := curl_secure run 9 "managers" "report.txt" (Some (TOKEN run 9 "admin"));
       expected := "Managers only"; check_type := "equals" |};
    {| result := curl_secure run 10 "developers" "project1/diagram.txt"
                   (Some (TOKEN run 10 "admin"));
       expected := "Developers only (nested)"; check_type := "equals" |};
    {| result := curl_secure run 11 "finance" "budget.txt" (Some (TOKEN run 11 "admin"));
       expected := "Finance only"; check_type := "equals" |};
    {| result := curl_secure run 12 "developers" "project1/diagram.txt"
                   (Some (TOKEN run 12 "dev"));
       expected := "Developers only (nested)"; check_type := "equals" |};
    {| result := curl_secure run 13 "managers" "report.txt" (Some (TOKEN run 13 "guest"));
       expected := "Access Denied"; check_type := "equals" |} ].

End TestSuite.

(** ** verify-production-server.sh *)

Module VerifyServer.

(** What the commands of the script report on the server. *)
Record Observed := {
  ssh_ok : bool;            (** the [ssh] of step 1 succeeds *)
  db_error_lines : nat;     (** [grep -c "ERROR"] on the output of [psql] *)
  node_version : string;    (** the output of [node --version] *)
  nginx_check : string;     (** the output of [which nginx] *)
  port_listeners : nat;     (** [grep -c "LISTEN"] on the output of [lsof] *)
  disk_usage : option Z;    (** the use of the disk in percent, if a number *)
  auth_status : string;     (** the output of [systemctl is-active asset-auth] *)
  jwt_log_lines : nat;      (** lines of the journal with the banner's JWT line *)
  spoofed_code : Z;         (** the HTTP status [curl] gets with the spoofed token *)
  no_jwt_code : Z           (** the HTTP status [curl] gets without cookie *)
}.

(** [s] ends with [suffix]. *)
Fixpoint ends_with (suffix s : string) : bool :=
  String.eqb s suffix
  || match s with
     | EmptyString => false
     | String _ rest => ends_with suffix rest
     end.

(** [[[ $NODE_VERSION == v* ]]] *)
Definition node_found (o : Observed) : bool := String.prefix "v" (node_version o).

(** [[[ $NGINX_CHECK == /*/nginx ]]] *)
Definition nginx_found (o : Observed) : bool :=
  match nginx_check o with
  | String c rest => Ascii.eqb c Express.slash && ends_with "/nginx" rest
  | EmptyString => false
  end.


Definition count (failed : bool) (errors : nat) : nat :=
  if failed then S errors else errors.

(** [ERRORS] at the end of the script.  The steps on the groups, the port,
    the disk, the journal and the request without cookie only print. *)
Definition ERRORS (o : Observed) : nat :=
  let errors := count (negb (ssh_ok o)) 0 in
  let errors := count (negb (db_error_lines o =? 0)%nat) errors in
  let errors := count (negb (node_found o)) errors in
  let errors := count (negb (nginx_found o)) errors in
  if String.eqb (auth_status o) "active"
  then count (negb (spoofed_code o =? 403)) errors
  else errors.

Definition exit_status (o : Observed) : Z :=
  if (ERRORS o =? 0)%nat then 0 else 1.

End VerifyServer.

(** ** secure-content.js: the blocks of the page *)

Module Page.

(** An element of the document, as far as [initDecryptBlocks] reads and
    writes it. *)
Record Element := {
  classList : list string;
  dataset : gmap string string;
  cursor : string;            (** [style.cursor] *)
  click_listeners : nat       (** listeners added for [click] *)
}.

(** The selector [.encrypted-secret] *)
Definition encrypted_secret (e : Element) : bool :=
  bool_decide ("encrypted-secret" ∈ classList e).

(** [block.dataset.initialized] as a condition: an attribute that is absent
    or empty is falsy. *)
Definition initialized (block : Element) : bool :=
  match dataset block !! "initialized" with
  | Some value => negb (String.eqb value "")
  | None => false
  end.

(** The callback of [forEach]. *)
Definition init_block (block : Element) : Element :=
  if initialized block then block
  else {| classList := classList block;
          dataset := <[ "initialized" := "true" ]> (dataset block);
          cursor := "pointer";
          click_listeners := S (click_listeners block) |}.

(** [initDecryptBlocks()], on the elements of the document in document
    order. *)
Definition initDecryptBlocks (document : list Element) : list Element :=
  (λ e, if encrypted_secret e then init_block e else e) <$> document.

End Page.

(** * Properties *)

(** ** The handlers answer the responses above *)

(** Unfolds the operations of the handler monad. *)
Ltac unfold_handler :=
  cbv beta iota zeta delta
    [respond run bind try_catch lift ret throw send console_log console_error
     initial_state fst snd console queries Pg.query
     AssetAuthService.authenticateRequest AssetAuthService.check_membership
     AssetAuthService.on_error
     MockAuthService.handler MockAuthService.groups_includes].

Lemma authenticateRequest_response env params req :
  respond (AssetAuthService.authenticateRequest env params req)
  = db_backed_response env params req.
Proof.
  unfold db_backed_response, verification, clock, verification_key,
    verification_options, membership_response, on_error_response.
  unfold_handler.
  destruct (Express.cookies req !! "jwt") as [jwtString|] eqn:Hcookie; [|done].
  destruct (Jwt.truthy (Some jwtString)); [|done].
  unfold_handler; cbn [negb].
  destruct (Jwt.verify _ jwtString _ _) as [err|decoded]; unfold_handler.
  - destruct (String.eqb (JS.name err) "JsonWebTokenError"); [done|].
    destruct (String.eqb (JS.name err) "TokenExpiredError"); done.
  - destruct (Jwt.id decoded) as [userId|]; [|done].
    destruct (userId =? 0); [done|].
    unfold_handler.
    destruct (Pg.fault (AssetAuthService.pool env) 0); [done|].
    destruct (Pg.select_membership _ userId _) as [|user ?]; unfold_handler.
    + destruct (Pg.fault (AssetAuthService.pool env) 1); [done|].
      destruct (Pg.select_user _ userId); done.
    + destruct (String.eqb (Pg.group_name user) "Administrators"); done.
Qed.

Lemma handler_response env groupName assetPath req :
  respond (MockAuthService.handler env groupName assetPath req)
  = inline_claims_response env groupName assetPath req.
Proof.
  unfold inline_claims_response, verification, clock, verification_key,
    verification_options.
  unfold_handler.
  destruct (Express.cookies req !! "jwt") as [jwtString|] eqn:Hcookie; [|done].
  destruct (Jwt.truthy (Some jwtString)); [|done].
  unfold_handler; cbn [negb].
  destruct (Jwt.verify _ jwtString _ _) as [err|decoded]; unfold_handler; [done|].
  destruct (Jwt.groups decoded) as [l|]; [|done].
  destruct (Jwt.includes l "Administrators") eqn:Hadmin; unfold_handler; [done|].
  destruct (Jwt.includes l groupName); done.
Qed.

Lemma decision_response d req :
  decision d req =
  match d with
  | DbBacked env params => db_backed_response env params req
  | InlineClaims env groupName assetPath =>
      inline_claims_response env groupName assetPath req
  end.
Proof.
  destruct d; simpl.
  - apply authenticateRequest_response.
  - apply handler_response.
Qed.

(** ** What [jwt.verify] answers *)

Lemma verify_opaque now raw key options :
  ∃ msg, Jwt.verify now (Jwt.Opaque raw) key options = inl (JS.JsonWebTokenError msg).
Proof. simpl. destruct (String.eqb raw ""); eauto. Qed.

Lemma verify_bad_signature now token key options :
  Jwt.signature_verifies token key options = false →
  ∃ msg, Jwt.verify now (Jwt.Jws token) key options = inl (JS.JsonWebTokenError msg).
Proof.
  unfold Jwt.signature_verifies, Jwt.verify, Jwt.jws_verify.
  intros Hsig.
  destruct (Jwt.signature token) eqn:Hpart; [eauto|..];
    (destruct (Jwt.includes _ (Jwt.alg token)); simpl in *; [|eauto]);
    (destruct (Jwt.key_fits _ key); simpl in *; [|eauto]).
  - eauto.
  - rewrite Hsig. simpl. eauto.
Qed.

Lemma verify_good_signature now token key options :
  Jwt.signature_verifies token key options = true →
  Jwt.verify now (Jwt.Jws token) key options =
    if Jwt.expired now token
    then inl (JS.TokenExpiredError "jwt expired")
    else inr (Jwt.payload token).
Proof.
  unfold Jwt.signature_verifies, Jwt.verify, Jwt.expired.
  intros Hsig.
  apply andb_prop in Hsig as [Hsig Hjws]. apply andb_prop in Hsig as [Halg Hfit].
  assert (Jwt.signature token ≠ Jwt.Unsigned) as Hpart.
  { unfold Jwt.jws_verify in Hjws. by destruct (Jwt.signature token). }
  destruct (Jwt.signature token) eqn:Heq; [done|..];
    rewrite Halg, Hfit, Hjws; simpl;
    destruct (Jwt.exp (Jwt.payload token)) as [e|]; try done;
    destruct (e <=? now); done.
Qed.

(** A rejected credential makes [jwt.verify] throw: one of the two errors
    the production service answers with 403, or, for a payload that is not
    JSON, the [SyntaxError]; any other token is decoded. *)
Lemma rejected_verification d jwtString :
  rejected d (Some jwtString) = true →
  ∃ err, verification d jwtString = inl err
         ∧ match jwtString with
           | Jwt.BadPayload message => err = JS.SyntaxError message
           | _ => JS.name err = "JsonWebTokenError" ∨ JS.name err = "TokenExpiredError"
           end.
Proof.
  unfold rejected, verification.
  destruct jwtString as [raw|message|token]; intros Hrej.
  - destruct (verify_opaque (clock d) raw (verification_key d) (verification_options d))
      as [msg ->].
    eexists; split; [done|]. by left.
  - by eexists.
  - destruct (Jwt.signature_verifies token _ _) eqn:Hsig; simpl in Hrej.
    + rewrite (verify_good_signature _ _ _ _ Hsig), Hrej.
      eexists; split; [done|]. by right.
    + destruct (verify_bad_signature (clock d) _ _ _ Hsig) as [msg ->].
      eexists; split; [done|]. by left.
Qed.

Lemma accepted_verification d token :
  rejected d (Some (Jwt.Jws token)) = false →
  verification d (Jwt.Jws token) = inr (Jwt.payload token).
Proof.
  unfold rejected, verification. intros Hrej.
  apply orb_false_elim in Hrej as [Hsig Hexp].
  apply negb_false_iff in Hsig.
  by rewrite (verify_good_signature _ _ _ _ Hsig), Hexp.
Qed.

Lemma on_error_response_jwt err :
  JS.name err = "JsonWebTokenError" ∨ JS.name err = "TokenExpiredError" →
  status (on_error_response err) = 403.
Proof. unfold on_error_response. by intros [-> | ->]. Qed.

(** ** Credentials that do not verify *)

(** C1 at the failing input.  A cookie of three parts whose header has the
    [typ] [JWT] and whose payload is not JSON (here the payload is an
    opening brace) is a malformed credential, and the mock answers it 403;
    the production service answers 500 [Server error]: the [SyntaxError]
    that [jwt.verify] throws for it is none of the two errors its [catch]
    block answers with 403. *)
Theorem payload_not_json_answered_500 :
  rejected (DbBacked Scenario.wiki_env (Scenario.file_params "managers" "report.pdf"))
    (Some (Jwt.BadPayload "Unexpected end of JSON input")) = true
  ∧ decision (DbBacked Scenario.wiki_env (Scenario.file_params "managers" "report.pdf"))
      (Scenario.get "/auth/managers/report.pdf"
         (Some (Jwt.BadPayload "Unexpected end of JSON input")))
    = {| status := 500; body := "Server error" |}
  ∧ journal (AssetAuthService.authenticateRequest Scenario.wiki_env
               (Scenario.file_params "managers" "report.pdf")
               (Scenario.get "/auth/managers/report.pdf"
                  (Some (Jwt.BadPayload "Unexpected end of JSON input"))))
    !! 3%nat = Some "  Result: ❌ ERROR: Unexpected end of JSON input"
  ∧ decision (InlineClaims Scenario.mock_env "managers" "report.txt")
      (Scenario.get "/auth/managers/report.txt"
         (Some (Jwt.BadPayload "Unexpected end of JSON input")))
    = {| status := 403; body := "Invalid JWT" |}.
Proof. repeat split; vm_compute; reflexivity. Qed.

(** ** The accepted algorithms *)



(** A token that declares an accepted algorithm, carries a signature made
    with it for the verification key over its payload, and has not expired,
    is decoded, provided the algorithm fits the kind of key. *)
Lemma accepted_algorithm_verifies d a claims :
  Jwt.includes (accepted_algorithms d) a = true →
  Jwt.key_fits a (verification_key d) = true →
  Jwt.expired (clock d) {| Jwt.alg := a; Jwt.payload := claims;
                           Jwt.signature := Jwt.Signed a (verification_key d) claims |}
    = false →
  verification d (Scenario.signed a (verification_key d) claims) = inr claims.
Proof.
  intros Halg Hfit Hexp. unfold Scenario.signed.
  rewrite accepted_verification; [done|].
  unfold rejected, Jwt.signature_verifies, Jwt.jws_verify. fold (accepted_algorithms d).
  cbn [Jwt.alg Jwt.signature Jwt.payload].
  rewrite Halg, Hfit, Hexp, String.eqb_refl, !bool_decide_eq_true_2; done.
Qed.




(** ** The membership query *)

Lemma elem_of_memberships db userId n :
  n ∈ Pg.memberships db userId ↔
  ∃ u ug g, u ∈ Pg.users db ∧ ug ∈ Pg.userGroups db ∧ g ∈ Pg.groups db
            ∧ Pg.u_id u = Pg.ug_userId ug ∧ Pg.ug_groupId ug = Pg.g_id g
            ∧ Pg.u_id u = userId ∧ n = Pg.g_name g.
Proof.
  unfold Pg.memberships. split.
  - intros H.
    apply list_elem_of_bind in H as (u & H & Hu).
    apply list_elem_of_bind in H as (ug & H & Hug).
    apply list_elem_of_bind in H as (g & H & Hg).
    destruct (_ && _) eqn:Hcond in H; [|by apply elem_of_nil in H].
    apply list_elem_of_singleton in H.
    apply andb_prop in Hcond as [Hcond H3]. apply andb_prop in Hcond as [H1 H2].
    exists u, ug, g. repeat split; try done; by apply Z.eqb_eq.
  - intros (u & ug & g & Hu & Hug & Hg & H1 & H2 & H3 & ->).
    apply list_elem_of_bind. exists u. split; [|done].
    apply list_elem_of_bind. exists ug. split; [|done].
    apply list_elem_of_bind. exists g. split; [|done].
    apply Z.eqb_eq in H1, H2, H3. rewrite H1, H2, H3. simpl.
    by apply list_elem_of_singleton.
Qed.

(** The membership query returns a row exactly when the user is in the
    required group or in [Administrators]. *)
Lemma select_membership_rows db userId groupName :
  Pg.select_membership db userId groupName ≠ [] ↔
  groupName ∈ Pg.memberships db userId ∨ "Administrators" ∈ Pg.memberships db userId.
Proof.
  unfold Pg.select_membership.
  match goal with |- take 1 ?l ≠ [] ↔ _ => set (rows := l) end.
  assert (take 1 rows ≠ [] ↔ ∃ row, row ∈ rows) as ->.
  { destruct rows as [|row rows']; simpl; split; try done.
    - intros [row Hrow]. by apply elem_of_nil in Hrow.
    - intros _. exists row. by left. }
  subst rows. split.
  - intros (row & H).
    apply list_elem_of_bind in H as (u & H & Hu).
    apply list_elem_of_bind in H as (ug & H & Hug).
    apply list_elem_of_bind in H as (g & H & Hg).
    destruct (_ && _) eqn:Hcond in H; [|by apply elem_of_nil in H].
    apply andb_prop in Hcond as [Hcond Hname]. apply andb_prop in Hcond as [Hcond H3].
    apply andb_prop in Hcond as [H1 H2].
    apply Z.eqb_eq in H1, H2, H3.
    apply orb_prop in Hname as [Hname | Hname]; apply String.eqb_eq in Hname;
      [left | right]; apply elem_of_memberships; exists u, ug, g; by rewrite Hname.
  - assert (∀ n, (n = groupName ∨ n = "Administrators") →
                 n ∈ Pg.memberships db userId →
                 ∃ row, row ∈
                   (u ← Pg.users db; ug ← Pg.userGroups db; g ← Pg.groups db;
                    if (Pg.u_id u =? Pg.ug_userId ug) && (Pg.ug_groupId ug =? Pg.g_id g)
                       && (Pg.u_id u =? userId)
                       && (String.eqb (Pg.g_name g) groupName
                           || String.eqb (Pg.g_name g) "Administrators")
                    then [ {| Pg.user_id := Pg.u_id u; Pg.user_email := Pg.u_email u;
                              Pg.group_name := Pg.g_name g |} ]
                    else [])) as Hrow.
    { intros n Hn Hin.
      apply elem_of_memberships in Hin as (u & ug & g & Hu & Hug & Hg & H1 & H2 & H3 & ->).
      eexists.
      apply list_elem_of_bind. exists u. split; [|done].
      apply list_elem_of_bind. exists ug. split; [|done].
      apply list_elem_of_bind. exists g. split; [|done].
      apply Z.eqb_eq in H1, H2, H3. rewrite H1, H2, H3.
      assert (String.eqb (Pg.g_name g) groupName
              || String.eqb (Pg.g_name g) "Administrators" = true) as ->.
      { destruct Hn as [-> | ->]; rewrite String.eqb_refl; [done | apply orb_true_r]. }
      simpl. by apply list_elem_of_singleton. }
    intros [H | H];
      [apply (Hrow groupName) | apply (Hrow "Administrators")]; auto.
Qed.

Lemma includes_elem_of l x : Jwt.includes l x = true ↔ x ∈ l.
Proof.
  unfold Jwt.includes. rewrite existsb_exists. split.
  - intros (y & Hy & Heq). apply String.eqb_eq in Heq as ->. by apply list_elem_of_In.
  - intros Hx. exists x. split; [by apply list_elem_of_In | apply String.eqb_refl].
Qed.

(** ** Decisions for a verified subject *)

Lemma verified_is_truthy d jwtString decoded :
  verification d jwtString = inr decoded → Jwt.truthy (Some jwtString) = true.
Proof.
  destruct jwtString as [raw|message|token]; [|done..].
  unfold verification. intros H.
  by destruct (verify_opaque (clock d) raw (verification_key d) (verification_options d))
    as [msg Hmsg]; rewrite Hmsg in H.
Qed.

Lemma member_allowed d req jwtString decoded member_of :
  Express.cookies req !! "jwt" = Some jwtString →
  verification d jwtString = inr decoded →
  resolved_membership d decoded = Some member_of →
  store_fault d 0 = None →
  required_group d ∈ member_of ∨ "Administrators" ∈ member_of →
  decision d req = {| status := 200; body := "OK" |}.
Proof.
  intros Hcookie Hverify Hresolved Hstore Hmember.
  rewrite decision_response.
  destruct d as [env params | env groupName assetPath];
    unfold db_backed_response, inline_claims_response;
    rewrite Hcookie, (verified_is_truthy _ _ _ Hverify), Hverify;
    cbn [negb]; simpl in Hresolved, Hstore, Hmember.
  - destruct (Jwt.id decoded) as [userId|]; [|done].
    destruct (userId =? 0); [done|].
    injection Hresolved as <-.
    unfold membership_response. rewrite Hstore.
    apply select_membership_rows in Hmember.
    by destruct (Pg.select_membership _ userId _).
  - rewrite Hresolved.
    assert (Jwt.includes member_of "Administrators" || Jwt.includes member_of groupName
            = true) as ->; [|done].
    apply orb_true_iff. rewrite !includes_elem_of. tauto.
Qed.

Lemma non_member_denied d req jwtString decoded member_of :
  Express.cookies req !! "jwt" = Some jwtString →
  verification d jwtString = inr decoded →
  resolved_membership d decoded = Some member_of →
  store_fault d 0 = None →
  ¬ (required_group d ∈ member_of ∨ "Administrators" ∈ member_of) →
  status (decision d req) ≠ 200
  ∧ (store_fault d 1 = None → status (decision d req) = 403).
Proof.
  intros Hcookie Hverify Hresolved Hstore Hmember.
  rewrite decision_response.
  destruct d as [env params | env groupName assetPath];
    unfold db_backed_response, inline_claims_response;
    rewrite Hcookie, (verified_is_truthy _ _ _ Hverify), Hverify;
    cbn [negb]; simpl in Hresolved, Hstore, Hmember |- *.
  - destruct (Jwt.id decoded) as [userId|]; [|done].
    destruct (userId =? 0); [done|].
    injection Hresolved as <-.
    unfold membership_response. rewrite Hstore.
    rewrite <- select_membership_rows in Hmember.
    destruct (Pg.select_membership _ userId _); [|by destruct Hmember].
    destruct (Pg.fault (AssetAuthService.pool env) 1).
    + done.
    + by destruct (Pg.select_user _ userId).
  - rewrite Hresolved.
    assert (Jwt.includes member_of "Administrators" || Jwt.includes member_of groupName
            = false) as ->; [|done].
    apply orb_false_iff.
    split; apply not_true_is_false; rewrite includes_elem_of; tauto.
Qed.

(** C3.  Privilege supersedes group: when the credential verifies and the
    membership set resolved for its subject contains [Administrators], the
    answer is 200 OK whichever group the path requires. *)
Theorem administrators_allowed_everywhere (d : Deployment) (req : Express.Request)
    (jwtString : Jwt.Credential) (decoded : Jwt.Payload) (member_of : list string) :
  Express.cookies req !! "jwt" = Some jwtString →
  verification d jwtString = inr decoded →
  resolved_membership d decoded = Some member_of →
  store_fault d 0 = None →
  "Administrators" ∈ member_of →
  decision d req = {| status := 200; body := "OK" |}.
Proof.
  intros Hcookie Hverify Hresolved Hstore Hadmin.
  eapply member_allowed; eauto.
Qed.

(** The administrator asks for [finance/budget], in production and in the
    test environment. *)
Lemma administrators_allowed_everywhere_witness :
  decision (DbBacked Scenario.wiki_env (Scenario.file_params "finance" "budget.xlsx"))
    (Scenario.get "/auth/finance/budget.xlsx"
       (Some (Scenario.wiki_token 1 "admin@test.com")))
  = {| status := 200; body := "OK" |}
  ∧ decision (InlineClaims Scenario.mock_env "finance" "budget.txt")
      (Scenario.get "/auth/finance/budget.txt" (Some Scenario.admin_token))
    = {| status := 200; body := "OK" |}.
Proof.
  split.
  - apply (administrators_allowed_everywhere _ _
             (Scenario.wiki_token 1 "admin@test.com")
             (Scenario.wiki_claims 1 "admin@test.com" (Scenario.noon + 1800))
             ["Administrators"]);
      try (vm_compute; reflexivity).
    by apply list_elem_of_singleton.
  - apply (administrators_allowed_everywhere _ _
             Scenario.admin_token
             (Scenario.test_claims "admin@test.com" ["Administrators"] Scenario.noon)
             ["Administrators"]);
      try (vm_compute; reflexivity).
    by apply list_elem_of_singleton.
Defined.

(** C4.  Group matching is exact and case-sensitive: a verified subject is
    allowed exactly when the required group, as a string, is an element of
    its membership set (or [Administrators] is); a subject whose membership
    set is [["managers"]] is denied for [Managers] and for [management]. *)
Theorem group_match_is_exact (d : Deployment) (req : Express.Request)
    (jwtString : Jwt.Credential) (decoded : Jwt.Payload) (member_of : list string) :
  Express.cookies req !! "jwt" = Some jwtString →
  verification d jwtString = inr decoded →
  resolved_membership d decoded = Some member_of →
  (∀ n, store_fault d n = None) →
  (status (decision d req) = 200
   ↔ required_group d ∈ member_of ∨ "Administrators" ∈ member_of)
  ∧ (member_of = ["managers"] →
     required_group d = "Managers" ∨ required_group d = "management" →
     status (decision d req) = 403).
Proof.
  intros Hcookie Hverify Hresolved Hstore.
  split; [split|].
  - intros Hstatus.
    destruct (decide (required_group d ∈ member_of ∨ "Administrators" ∈ member_of))
      as [|Hnot]; [done|].
    by destruct (non_member_denied d req _ _ _ Hcookie Hverify Hresolved (Hstore 0%nat) Hnot).
  - intros Hmember.
    by rewrite (member_allowed d req _ _ _ Hcookie Hverify Hresolved (Hstore 0%nat) Hmember).
  - intros -> Hrequired.
    apply (non_member_denied d req _ _ _ Hcookie Hverify Hresolved (Hstore 0%nat));
      [|apply Hstore].
    rewrite !list_elem_of_singleton.
    destruct Hrequired as [-> | ->]; intros [? | ?]; done.
Qed.

(** The manager of the test environment asks for [Managers] in production
    and for [management] in the test environment. *)
Lemma group_match_is_exact_witness :
  status (decision (DbBacked Scenario.wiki_env (Scenario.file_params "Managers" "report.pdf"))
            (Scenario.get "/auth/Managers/report.pdf"
               (Some (Scenario.wiki_token 3 "manager@test.com"))))
  = 403
  ∧ status (decision (InlineClaims Scenario.mock_env "management" "report.txt")
              (Scenario.get "/auth/management/report.txt" (Some Scenario.manager_token)))
    = 403.
Proof.
  split.
  - destruct (group_match_is_exact
                (DbBacked Scenario.wiki_env (Scenario.file_params "Managers" "report.pdf"))
                (Scenario.get "/auth/Managers/report.pdf"
                   (Some (Scenario.wiki_token 3 "manager@test.com")))
                (Scenario.wiki_token 3 "manager@test.com")
                (Scenario.wiki_claims 3 "manager@test.com" (Scenario.noon + 1800))
                ["managers"]) as [_ Hdenied];
      [vm_compute; reflexivity .. | intros n; reflexivity |].
    apply Hdenied; [reflexivity | left; reflexivity].
  - destruct (group_match_is_exact
                (InlineClaims Scenario.mock_env "management" "report.txt")
                (Scenario.get "/auth/management/report.txt" (Some Scenario.manager_token))
                Scenario.manager_token
                (Scenario.test_claims "manager@test.com" ["managers"] Scenario.noon)
                ["managers"]) as [_ Hdenied];
      [vm_compute; reflexivity .. | intros n; reflexivity |].
    apply Hdenied; [reflexivity | right; reflexivity].
Defined.

(** ** Failures of the store *)

(** C5.  Fail-closed on infrastructure failure: when the credential verifies
    and a query the handler sends to the database is rejected (the
    membership query, or the user check that follows an empty answer), the
    answer is 500 [Server error], whatever the tables hold. *)
Theorem store_failure_fails_closed (env : AssetAuthService.Env) (params : Express.Params)
    (req : Express.Request) (jwtString : Jwt.Credential) (decoded : Jwt.Payload)
    (userId : Z) (msg : string) :
  Express.cookies req !! "jwt" = Some jwtString →
  verification (DbBacked env params) jwtString = inr decoded →
  Jwt.id decoded = Some userId →
  userId ≠ 0 →
  Pg.fault (AssetAuthService.pool env) 0 = Some msg
  ∨ (Pg.fault (AssetAuthService.pool env) 0 = None
     ∧ Pg.select_membership (Pg.tables (AssetAuthService.pool env)) userId
         (Express.groupName params) = []
     ∧ Pg.fault (AssetAuthService.pool env) 1 = Some msg) →
  decision (DbBacked env params) req = {| status := 500; body := "Server error" |}.
Proof.
  intros Hcookie Hverify Hid Hnonzero Hfault.
  rewrite decision_response. unfold db_backed_response.
  rewrite Hcookie, (verified_is_truthy _ _ _ Hverify), Hverify, Hid.
  apply Z.eqb_neq in Hnonzero. rewrite Hnonzero. cbn [negb].
  unfold membership_response.
  destruct Hfault as [-> | (-> & -> & ->)]; done.
Qed.

(** The manager asks for [managers/report.pdf] while the database refuses
    connections. *)
Lemma store_failure_fails_closed_witness :
  decision (DbBacked Scenario.wiki_env_store_down (Scenario.file_params "managers" "report.pdf"))
    (Scenario.get "/auth/managers/report.pdf"
       (Some (Scenario.wiki_token 3 "manager@test.com")))
  = {| status := 500; body := "Server error" |}.
Proof.
  apply (store_failure_fails_closed _ _ _
           (Scenario.wiki_token 3 "manager@test.com")
           (Scenario.wiki_claims 3 "manager@test.com" (Scenario.noon + 1800))
           3 "connect ECONNREFUSED");
    try (vm_compute; reflexivity).
  - lia.
  - left. reflexivity.
Defined.

(** ** Expiry and signature failures *)

(** C6.  In the production service a token whose signature verifies and
    whose [exp] is not after the clock is answered 403 [JWT expired]; a
    token that fails the signature step is answered 403
    [Invalid JWT signature]; the two bodies differ. *)
Theorem expired_is_not_invalid_signature (env : AssetAuthService.Env)
    (params : Express.Params) (req : Express.Request) (token : Jwt.Token) :
  Express.cookies req !! "jwt" = Some (Jwt.Jws token) →
  (Jwt.signature_verifies token (AssetAuthService.JWT_PUBLIC_KEY env)
     AssetAuthService.verify_options = true →
   Jwt.expired (AssetAuthService.now env) token = true →
   decision (DbBacked env params) req = {| status := 403; body := "JWT expired" |})
  ∧ (Jwt.signature_verifies token (AssetAuthService.JWT_PUBLIC_KEY env)
       AssetAuthService.verify_options = false →
     decision (DbBacked env params) req
     = {| status := 403; body := "Invalid JWT signature" |})
  ∧ "JWT expired" ≠ "Invalid JWT signature".
Proof.
  intros Hcookie.
  rewrite decision_response. unfold db_backed_response, verification.
  rewrite Hcookie. cbn [Jwt.truthy negb clock verification_key verification_options].
  split; [|split; [|done]].
  - intros Hsig Hexp. by rewrite (verify_good_signature _ _ _ _ Hsig), Hexp.
  - intros Hsig.
    by destruct (verify_bad_signature (AssetAuthService.now env) _ _ _ Hsig) as [msg ->].
Qed.

(** A manager's token that expired an hour ago, and the same token with the
    payload changed to user 1 after signing. *)
Lemma expired_is_not_invalid_signature_witness :
  decision (DbBacked Scenario.wiki_env (Scenario.file_params "managers" "report.pdf"))
    (Scenario.get "/auth/managers/report.pdf"
       (Some (Scenario.signed "RS256" Scenario.wiki_key
                (Scenario.wiki_claims 3 "manager@test.com" (Scenario.noon - 3600)))))
  = {| status := 403; body := "JWT expired" |}
  ∧ decision (DbBacked Scenario.wiki_env (Scenario.file_params "managers" "report.pdf"))
      (Scenario.get "/auth/managers/report.pdf"
         (Some (Jwt.Jws
            {| Jwt.alg := "RS256";
               Jwt.payload := Scenario.wiki_claims 1 "manager@test.com" (Scenario.noon - 3600);
               Jwt.signature :=
                 Jwt.Signed "RS256" Scenario.wiki_key
                   (Scenario.wiki_claims 3 "manager@test.com" (Scenario.noon - 3600)) |})))
    = {| status := 403; body := "Invalid JWT signature" |}.
Proof.
  split.
  - eapply expired_is_not_invalid_signature; [reflexivity | vm_compute; reflexivity ..].
  - eapply expired_is_not_invalid_signature; [reflexivity | vm_compute; reflexivity].
Defined.

(** ** Route matching *)

Lemma strip_append ci literal s :
  Express.strip ci literal (literal +:+ s) = Some s.
Proof.
  induction literal as [|c literal IH]; simpl; [by destruct s|].
  destruct ci; by rewrite Ascii.eqb_refl.
Qed.

Lemma segment_append g rest :
  Express.slash_free g = true →
  Express.segment (g +:+ String Express.slash rest) = (g, String Express.slash rest).
Proof.
  induction g as [|c g IH]; simpl.
  - done.
  - intros [Hc Hg]%andb_prop. apply negb_true_iff in Hc. by rewrite Hc, IH.
Qed.

Lemma segment_slash_free g :
  Express.slash_free g = true → Express.segment g = (g, EmptyString).
Proof.
  induction g as [|c g IH]; simpl; [done|].
  intros [Hc Hg]%andb_prop. apply negb_true_iff in Hc. by rewrite Hc, IH.
Qed.

Lemma is_empty_false s : s ≠ EmptyString → Express.is_empty s = false.
Proof. by destruct s. Qed.

(** The regular expression of the mock captures the first segment as the
    group and everything after the next slash as the asset path. *)
Lemma auth_regex_pattern_captures g a :
  Express.slash_free g = true → g ≠ EmptyString →
  Express.no_line_terminator a = true → a ≠ EmptyString →
  Express.auth_regex_pattern ("/auth/" +:+ g +:+ "/" +:+ a) = Some (g, a).
Proof.
  intros Hg Hg' Ha Ha'. unfold Express.auth_regex_pattern.
  rewrite strip_append.
  change ("/" +:+ a) with (String Express.slash a).
  rewrite (segment_append _ _ Hg).
  by rewrite (is_empty_false _ Hg'), (is_empty_false _ Ha'), Ha.
Qed.

(** The parameters of the mock are the two captures, decoded. *)
Lemma match_auth_regex_captures g a :
  Express.slash_free g = true → g ≠ EmptyString →
  Express.no_line_terminator a = true → a ≠ EmptyString →
  Express.match_auth_regex ("/auth/" +:+ g +:+ "/" +:+ a)
  = Express.decode_param g (λ groupName,
      Express.decode_param a (λ assetPath, Express.Matched (groupName, assetPath))).
Proof.
  intros Hg Hg' Ha Ha'. unfold Express.match_auth_regex.
  by rewrite auth_regex_pattern_captures.
Qed.

(** The file route of the production service takes a path of exactly two
    segments after [/auth/], and decodes each. *)
Lemma match_auth_file_captures g a :
  Express.slash_free g = true → g ≠ EmptyString →
  Express.slash_free a = true → a ≠ EmptyString →
  Express.match_auth_file ("/auth/" +:+ g +:+ "/" +:+ a)
  = Express.decode_param g (λ groupName,
      Express.decode_param a (λ assetPath,
        Express.Matched {| Express.groupName := groupName;
                           Express.assetPath := Some assetPath |})).
Proof.
  intros Hg Hg' Ha Ha'. unfold Express.match_auth_file, Express.auth_file_pattern.
  rewrite strip_append.
  change ("/" +:+ a) with (String Express.slash a).
  rewrite (segment_append _ _ Hg), (segment_slash_free _ Ha).
  by rewrite (is_empty_false _ Hg'), (is_empty_false _ Ha').
Qed.

(** The directory route takes a path of one segment after [/auth/], with or
    without a slash after it; the file route does not match it. *)
Lemma match_auth_dir_captures g p :
  Express.slash_free g = true → g ≠ EmptyString →
  p = "/auth/" +:+ g ∨ p = "/auth/" +:+ g +:+ "/" →
  Express.match_auth_file p = Express.NoMatch
  ∧ Express.match_auth_dir p
    = Express.decode_param g (λ groupName,
        Express.Matched {| Express.groupName := groupName; Express.assetPath := None |}).
Proof.
  intros Hg Hg' Hp.
  unfold Express.match_auth_file, Express.match_auth_dir, Express.auth_file_pattern,
    Express.auth_dir_pattern.
  destruct Hp as [-> | ->]; rewrite strip_append.
  - rewrite (segment_slash_free _ Hg). by rewrite (is_empty_false _ Hg').
  - change ("/" : string) with (String Express.slash EmptyString).
    rewrite (segment_append _ _ Hg). simpl.
    by rewrite (is_empty_false _ Hg').
Qed.

(** A path under [/auth/] is not the health check. *)
Lemma auth_is_not_health ci p rest :
  Express.strip ci "/auth/" p = Some rest → Express.match_health p = false.
Proof.
  unfold Express.match_health.
  destruct p as [|c1 [|c2 p]]; cbn [Express.strip]; try done.
  - by destruct ci; destruct (Ascii.eqb _ _).
  - destruct ci.
    + destruct (Ascii.eqb _ (Express.lower c1)); [|done].
      destruct (Ascii.eqb _ (Express.lower c2)) eqn:Hc2; [|done].
      apply Ascii.eqb_eq in Hc2 as <-. done.
    + destruct (Ascii.eqb _ c1) eqn:Hc1; [|done].
      destruct (Ascii.eqb _ c2) eqn:Hc2; [|done].
      apply Ascii.eqb_eq in Hc1 as <-, Hc2 as <-. done.
Qed.

(** No route of the production service matches a path with a third segment
    after [/auth/]. *)
Lemma route_nested_none g a b :
  Express.slash_free g = true → Express.slash_free a = true →
  a ≠ EmptyString → b ≠ EmptyString →
  AssetAuthService.route ("/auth/" +:+ g +:+ "/" +:+ a +:+ "/" +:+ b) = Express.NoMatch.
Proof.
  intros Hg Ha Ha' Hb.
  unfold AssetAuthService.route, Express.match_auth_file, Express.match_auth_dir,
    Express.auth_file_pattern, Express.auth_dir_pattern.
  rewrite strip_append.
  change ("/" +:+ a +:+ "/" +:+ b)
    with (String Express.slash (a +:+ String Express.slash b)).
  rewrite (segment_append _ _ Hg), (segment_append _ _ Ha).
  assert (Express.at_end (String Express.slash b) = false) as -> by by destruct b.
  assert (Express.at_end (String Express.slash (a +:+ String Express.slash b)) = false)
    as -> by by destruct a.
  by rewrite !orb_true_r.
Qed.

(** No route of either service matches a path whose group segment is empty. *)
Lemma empty_group_unrouted ci p rest :
  Express.strip ci "/auth/" p = Some rest →
  (Express.segment rest).1 = EmptyString →
  (ci = true → AssetAuthService.route p = Express.NoMatch)
  ∧ (ci = false → Express.match_auth_regex p = Express.NoMatch).
Proof.
  intros Hstrip Hseg.
  unfold AssetAuthService.route, Express.match_auth_file, Express.match_auth_dir,
    Express.match_auth_regex, Express.auth_file_pattern, Express.auth_dir_pattern,
    Express.auth_regex_pattern.
  split; intros ->; rewrite Hstrip;
    destruct (Express.segment rest) as [g after_group]; simpl in Hseg; subst g; simpl.
  - destruct after_group as [|c rest']; [done|].
    by destruct (Express.segment rest').
  - by destruct after_group.
Qed.

Lemma app_routed env req params :
  AssetAuthService.route (Express.path req) = Express.Matched params →
  respond (AssetAuthService.app env req) = decision (DbBacked env params) req.
Proof. unfold AssetAuthService.app. by intros ->. Qed.

Lemma app_bad_param env req val :
  AssetAuthService.route (Express.path req) = Express.BadParam val →
  status (respond (AssetAuthService.app env req)) = 400.
Proof. unfold AssetAuthService.app. by intros ->. Qed.

Lemma app_unrouted env req :
  AssetAuthService.route (Express.path req) = Express.NoMatch →
  Express.match_health (Express.path req) = false →
  respond (AssetAuthService.app env req)
  = {| status := 404; body := "Cannot GET " +:+ Express.path req |}.
Proof. unfold AssetAuthService.app. by intros -> ->. Qed.

Lemma mock_app_routed env req groupName assetPath :
  Express.match_auth_regex (Express.path req) = Express.Matched (groupName, assetPath) →
  respond (MockAuthService.app env req) = decision (InlineClaims env groupName assetPath) req.
Proof. unfold MockAuthService.app. by intros ->. Qed.

Lemma mock_app_bad_param env req val :
  Express.match_auth_regex (Express.path req) = Express.BadParam val →
  status (respond (MockAuthService.app env req)) = 400.
Proof. unfold MockAuthService.app. by intros ->. Qed.

Lemma mock_app_unrouted env req :
  Express.match_auth_regex (Express.path req) = Express.NoMatch →
  Express.match_health (Express.path req) = false →
  respond (MockAuthService.app env req)
  = {| status := 404; body := "Cannot GET " +:+ Express.path req |}.
Proof. unfold MockAuthService.app. by intros -> ->. Qed.

(** [decodeURIComponent] copies a string without [%]. *)
Lemma unescape_unescaped s :
  Express.unescaped s = true → JS.unescape s = Some (JS.Literal <$> String.list_ascii_of_string s).
Proof.
  induction s as [|c s IH]; simpl; [done|].
  intros [Hc Hs]%andb_prop. apply negb_true_iff in Hc.
  by rewrite Hc, (IH Hs).
Qed.

Lemma well_formed_literals l : JS.well_formed [] (JS.Literal <$> l) = true.
Proof. induction l as [|c l IH]; simpl; done. Qed.

Lemma decodeURIComponent_unescaped s :
  Express.unescaped s = true → JS.decodeURIComponent s = Some s.
Proof.
  intros Hs. unfold JS.decodeURIComponent.
  rewrite (unescape_unescaped _ Hs), well_formed_literals.
  rewrite <- list_fmap_compose.
  rewrite (list_fmap_ext (JS.octet ∘ JS.Literal) id) by done.
  by rewrite list_fmap_id, String.string_of_list_ascii_of_string.
Qed.

(** ** Paths *)

(** C7, as the claim states it, fails: a path with a [..] segment, and in
    production a path with an empty asset path, is allowed when the
    credential is good.  The first request is the claim's own example on the
    mock; the others are sent to the production service. *)
Lemma dot_dot_segment_allowed :
  respond (MockAuthService.app Scenario.mock_env
             (Scenario.get "/auth/../etc/passwd" (Some Scenario.admin_token)))
  = {| status := 200; body := "OK" |}
  ∧ respond (AssetAuthService.app Scenario.wiki_env
               (Scenario.get "/auth/../passwd" (Some (Scenario.wiki_token 1 "admin@test.com"))))
    = {| status := 200; body := "OK" |}
  ∧ respond (AssetAuthService.app Scenario.wiki_env
               (Scenario.get "/auth/managers" (Some (Scenario.wiki_token 3 "manager@test.com"))))
    = {| status := 200; body := "OK" |}.
Proof. repeat split; vm_compute; reflexivity. Qed.

(** C7, as the code has it.  The services do not validate the path.  A path
    whose group segment is empty matches no route and is answered 404.  For
    any other path of the shape [/auth/g/a] Express decodes the escapes of
    [g] and [a]: when one of them does not decode the answer is 400, and
    otherwise the handler gets the decoded segments and decides on the
    credential and the decoded group.  A segment without [%] is handed on
    as it is written, [.] and [..] included.  The production service also
    serves [/auth/g] and [/auth/g/], with an empty asset path, through its
    directory route, while the mock has no route for them. *)
Theorem path_is_routed_not_validated :
  (∀ env req rest,
     Express.strip true "/auth/" (Express.path req) = Some rest →
     (Express.segment rest).1 = EmptyString →
     status (respond (AssetAuthService.app env req)) = 404)
  ∧ (∀ env req rest,
       Express.strip false "/auth/" (Express.path req) = Some rest →
       (Express.segment rest).1 = EmptyString →
       status (respond (MockAuthService.app env req)) = 404)
  ∧ (∀ env req g a,
       Express.slash_free g = true → g ≠ EmptyString →
       Express.slash_free a = true → a ≠ EmptyString →
       Express.path req = "/auth/" +:+ g +:+ "/" +:+ a →
       match JS.decodeURIComponent g, JS.decodeURIComponent a with
       | Some groupName, Some assetPath =>
           respond (AssetAuthService.app env req)
           = decision (DbBacked env {| Express.groupName := groupName;
                                       Express.assetPath := Some assetPath |}) req
       | _, _ => status (respond (AssetAuthService.app env req)) = 400
       end)
  ∧ (∀ env req g a,
       Express.slash_free g = true → g ≠ EmptyString →
       Express.no_line_terminator a = true → a ≠ EmptyString →
       Express.path req = "/auth/" +:+ g +:+ "/" +:+ a →
       match JS.decodeURIComponent g, JS.decodeURIComponent a with
       | Some groupName, Some assetPath =>
           respond (MockAuthService.app env req)
           = decision (InlineClaims env groupName assetPath) req
       | _, _ => status (respond (MockAuthService.app env req)) = 400
       end)
  ∧ (∀ env req g,
       Express.slash_free g = true → g ≠ EmptyString →
       Express.path req = "/auth/" +:+ g ∨ Express.path req = "/auth/" +:+ g +:+ "/" →
       match JS.decodeURIComponent g with
       | Some groupName =>
           respond (AssetAuthService.app env req)
           = decision (DbBacked env {| Express.groupName := groupName;
                                       Express.assetPath := None |}) req
       | None => status (respond (AssetAuthService.app env req)) = 400
       end)
  ∧ (∀ env req g,
       Express.slash_free g = true →
       Express.path req = "/auth/" +:+ g ∨ Express.path req = "/auth/" +:+ g +:+ "/" →
       status (respond (MockAuthService.app env req)) = 404)
  ∧ (∀ s, Express.unescaped s = true → JS.decodeURIComponent s = Some s).
Proof.
  repeat apply conj.
  - intros env req rest Hstrip Hseg.
    rewrite app_unrouted; [done| |by eapply auth_is_not_health].
    by apply (empty_group_unrouted true _ _ Hstrip Hseg).
  - intros env req rest Hstrip Hseg.
    rewrite mock_app_unrouted; [done| |by eapply auth_is_not_health].
    by apply (empty_group_unrouted false _ _ Hstrip Hseg).
  - intros env req g a Hg Hg' Ha Ha' Hpath.
    pose proof (match_auth_file_captures g a Hg Hg' Ha Ha') as Hmatch.
    rewrite <- Hpath in Hmatch. unfold Express.decode_param in Hmatch.
    destruct (JS.decodeURIComponent g) as [groupName|];
      [destruct (JS.decodeURIComponent a) as [assetPath|]|].
    + apply app_routed. unfold AssetAuthService.route. by rewrite Hmatch.
    + apply (app_bad_param _ _ a). unfold AssetAuthService.route. by rewrite Hmatch.
    + apply (app_bad_param _ _ g). unfold AssetAuthService.route. by rewrite Hmatch.
  - intros env req g a Hg Hg' Ha Ha' Hpath.
    pose proof (match_auth_regex_captures g a Hg Hg' Ha Ha') as Hmatch.
    rewrite <- Hpath in Hmatch. unfold Express.decode_param in Hmatch.
    destruct (JS.decodeURIComponent g) as [groupName|];
      [destruct (JS.decodeURIComponent a) as [assetPath|]|].
    + by apply mock_app_routed.
    + by apply (mock_app_bad_param _ _ a).
    + by apply (mock_app_bad_param _ _ g).
  - intros env req g Hg Hg' Hpath.
    destruct (match_auth_dir_captures g _ Hg Hg' Hpath) as [Hfile Hdir].
    unfold Express.decode_param in Hdir.
    destruct (JS.decodeURIComponent g) as [groupName|].
    + apply app_routed. unfold AssetAuthService.route. by rewrite Hfile, Hdir.
    + apply (app_bad_param _ _ g). unfold AssetAuthService.route. by rewrite Hfile, Hdir.
  - intros env req g Hg Hpath.
    rewrite mock_app_unrouted; [done|..].
    + unfold Express.match_auth_regex, Express.auth_regex_pattern.
      destruct Hpath as [-> | ->]; rewrite strip_append.
      * by rewrite (segment_slash_free _ Hg).
      * change ("/" : string) with (String Express.slash EmptyString).
        rewrite (segment_append _ _ Hg). simpl. by rewrite orb_true_r.
    + destruct Hpath as [-> | ->];
        eapply (auth_is_not_health true); apply strip_append.
  - apply decodeURIComponent_unescaped.
Qed.

(** A request with an empty group segment; the claim's traversal example
    sent to the mock with the manager's token, which the handler decides
    for the group [..]; and the same example with its dots escaped, which
    the handler decides for the same group. *)
Lemma path_is_routed_not_validated_witness :
  status (respond (AssetAuthService.app Scenario.wiki_env
                     (Scenario.get "/auth//report.pdf"
                        (Some (Scenario.wiki_token 1 "admin@test.com")))))
  = 404
  ∧ respond (MockAuthService.app Scenario.mock_env
               (Scenario.get "/auth/../etc/passwd" (Some Scenario.manager_token)))
    = decision (InlineClaims Scenario.mock_env ".." "etc/passwd")
        (Scenario.get "/auth/../etc/passwd" (Some Scenario.manager_token))
  ∧ respond (MockAuthService.app Scenario.mock_env
               (Scenario.get "/auth/%2E%2e/etc/passwd" (Some Scenario.manager_token)))
    = decision (InlineClaims Scenario.mock_env ".." "etc/passwd")
        (Scenario.get "/auth/%2E%2e/etc/passwd" (Some Scenario.manager_token)).
Proof.
  split; [|split].
  - eapply (proj1 path_is_routed_not_validated); reflexivity.
  - apply (proj1 (proj2 (proj2 (proj2 path_is_routed_not_validated)))
             Scenario.mock_env _ ".." "etc/passwd"); try reflexivity; done.
  - apply (proj1 (proj2 (proj2 (proj2 path_is_routed_not_validated)))
             Scenario.mock_env _ "%2E%2e" "etc/passwd"); try reflexivity; done.
Defined.

(** No request for an asset in a subfolder reaches the handler of the
    production service. *)
Lemma nested_asset_path_never_routed env req g a b :
  Express.slash_free g = true → Express.slash_free a = true →
  a ≠ EmptyString → b ≠ EmptyString →
  Express.path req = "/auth/" +:+ g +:+ "/" +:+ a +:+ "/" +:+ b →
  status (respond (AssetAuthService.app env req)) = 404.
Proof.
  intros Hg Ha Ha' Hb Hpath.
  rewrite app_unrouted; [done|..]; rewrite Hpath.
  - by apply route_nested_none.
  - eapply (auth_is_not_health true). apply strip_append.
Qed.

(** C8 at the failing input.  The production service has no route for
    [/auth/dev/project1/diagram.png]: the member of [dev] who is allowed
    [/auth/dev/diagram.png] gets Express's 404 for the nested path, while the
    mock allows its developer the nested path of the test suite. *)
Theorem nested_asset_path_unrouted_in_production :
  status (respond (AssetAuthService.app Scenario.wiki_env
                     (Scenario.get "/auth/dev/project1/diagram.png"
                        (Some (Scenario.wiki_token 4 "dev@test.com")))))
  = 404
  ∧ respond (AssetAuthService.app Scenario.wiki_env
               (Scenario.get "/auth/dev/diagram.png"
                  (Some (Scenario.wiki_token 4 "dev@test.com"))))
    = {| status := 200; body := "OK" |}
  ∧ respond (MockAuthService.app Scenario.mock_env
               (Scenario.get "/auth/developers/project1/diagram.txt"
                  (Some Scenario.dev_token)))
    = {| status := 200; body := "OK" |}.
Proof. repeat split; vm_compute; reflexivity. Qed.

(** ** Response bodies *)

(** C9, as the claim states it, fails: requests denied for different reasons
    get different bodies, in production and in the mock. *)
Lemma denial_bodies_differ :
  decision (DbBacked Scenario.wiki_env (Scenario.file_params "managers" "report.pdf"))
    (Scenario.get "/auth/managers/report.pdf" None)
  = {| status := 403; body := "No JWT token" |}
  ∧ decision (DbBacked Scenario.wiki_env (Scenario.file_params "managers" "report.pdf"))
      (Scenario.get "/auth/managers/report.pdf"
         (Some (Scenario.signed "RS256" Scenario.wiki_key
                  (Scenario.wiki_claims 3 "manager@test.com" (Scenario.noon - 3600)))))
    = {| status := 403; body := "JWT expired" |}
  ∧ decision (DbBacked Scenario.wiki_env (Scenario.file_params "managers" "report.pdf"))
      (Scenario.get "/auth/managers/report.pdf"
         (Some (Scenario.wiki_token 9 "nobody@test.com")))
    = {| status := 403; body := "User not found" |}
  ∧ decision (InlineClaims Scenario.mock_env "finance" "budget.txt")
      (Scenario.get "/auth/finance/budget.txt" None)
    = {| status := 403; body := "No JWT" |}
  ∧ decision (InlineClaims Scenario.mock_env "finance" "budget.txt")
      (Scenario.get "/auth/finance/budget.txt" (Some Scenario.manager_token))
    = {| status := 403; body := "Access denied" |}.
Proof. repeat split; vm_compute; reflexivity. Qed.

(** C9, as the code has it.  Every answer of a handler is 200 [OK], or 403
    with one of the messages of [denial_messages], or 500 [Server error]: the
    denials share the status 403, and the body names the reason. *)
Theorem denials_share_status_not_body (d : Deployment) (req : Express.Request) :
  decision d req = {| status := 200; body := "OK" |}
  ∨ (status (decision d req) = 403 ∧ body (decision d req) ∈ denial_messages d)
  ∨ decision d req = {| status := 500; body := "Server error" |}.
Proof.
  rewrite decision_response.
  destruct d as [env params | env groupName assetPath];
    unfold db_backed_response, inline_claims_response, membership_response,
      on_error_response, denial_messages;
    repeat match goal with
           | |- context [match ?x with _ => _ end] => destruct x
           end;
    first [ by left
          | by right; right
          | right; left; split; [done | set_solver] ].
Qed.

(** ** The asset path *)

Lemma db_backed_response_group env params params' req req' :
  Express.groupName params = Express.groupName params' →
  Express.cookies req = Express.cookies req' →
  db_backed_response env params req = db_backed_response env params' req'.
Proof.
  unfold db_backed_response, verification. simpl. by intros -> ->.
Qed.

Lemma inline_claims_response_group env groupName assetPath assetPath' req req' :
  Express.cookies req = Express.cookies req' →
  inline_claims_response env groupName assetPath req
  = inline_claims_response env groupName assetPath' req'.
Proof.
  unfold inline_claims_response, verification. simpl. by intros ->.
Qed.

(** C10.  The asset path does not enter the decision.  Either handler
    answers the same (status and body) for the same group and the same
    cookies whatever the asset path is; hence two requests with the same
    cookies that Express routes to the handler with the same group (their
    paths match a route and their parameters decode) get the same response
    from the same service in the same state.  The asset path only appears
    on the console. *)
Theorem response_independent_of_asset_path :
  (∀ env groupName assetPath assetPath' req req',
     Express.cookies req = Express.cookies req' →
     respond (AssetAuthService.authenticateRequest env
                {| Express.groupName := groupName; Express.assetPath := assetPath |} req)
     = respond (AssetAuthService.authenticateRequest env
                  {| Express.groupName := groupName; Express.assetPath := assetPath' |} req'))
  ∧ (∀ env groupName assetPath assetPath' req req',
       Express.cookies req = Express.cookies req' →
       respond (MockAuthService.handler env groupName assetPath req)
       = respond (MockAuthService.handler env groupName assetPath' req'))
  ∧ (∀ env req req' params params',
       Express.cookies req = Express.cookies req' →
       AssetAuthService.route (Express.path req) = Express.Matched params →
       AssetAuthService.route (Express.path req') = Express.Matched params' →
       Express.groupName params = Express.groupName params' →
       respond (AssetAuthService.app env req) = respond (AssetAuthService.app env req'))
  ∧ (∀ env req req' groupName assetPath assetPath',
       Express.cookies req = Express.cookies req' →
       Express.match_auth_regex (Express.path req)
       = Express.Matched (groupName, assetPath) →
       Express.match_auth_regex (Express.path req')
       = Express.Matched (groupName, assetPath') →
       respond (MockAuthService.app env req) = respond (MockAuthService.app env req')).
Proof.
  repeat apply conj.
  - intros env groupName assetPath assetPath' req req' Hcookies.
    rewrite !authenticateRequest_response. by apply db_backed_response_group.
  - intros env groupName assetPath assetPath' req req' Hcookies.
    rewrite !handler_response. by apply inline_claims_response_group.
  - intros env req req' params params' Hcookies Hroute Hroute' Hgroup.
    rewrite (app_routed _ _ _ Hroute), (app_routed _ _ _ Hroute'), !decision_response.
    by apply db_backed_response_group.
  - intros env req req' groupName assetPath assetPath' Hcookies Hroute Hroute'.
    rewrite (mock_app_routed _ _ _ _ Hroute), (mock_app_routed _ _ _ _ Hroute'),
      !decision_response.
    by apply inline_claims_response_group.
Qed.

(** The manager asks for two files of [managers], of production and of the
    mock; in production one of the requests is for the folder itself, and in
    the mock one of the paths is nested and has an escape. *)
Lemma response_independent_of_asset_path_witness :
  respond (AssetAuthService.app Scenario.wiki_env
             (Scenario.get "/auth/managers/report.pdf"
                (Some (Scenario.wiki_token 3 "manager@test.com"))))
  = respond (AssetAuthService.app Scenario.wiki_env
               (Scenario.get "/auth/managers/"
                  (Some (Scenario.wiki_token 3 "manager@test.com"))))
  ∧ respond (MockAuthService.app Scenario.mock_env
               (Scenario.get "/auth/managers/report.txt" (Some Scenario.manager_token)))
    = respond (MockAuthService.app Scenario.mock_env
                 (Scenario.get "/auth/managers/2025/q3/annual%20report.txt"
                    (Some Scenario.manager_token))).
Proof.
  split.
  - eapply (proj1 (proj2 (proj2 response_independent_of_asset_path))); reflexivity.
  - eapply (proj2 (proj2 (proj2 response_independent_of_asset_path))); reflexivity.
Defined.

(** The console does show the asset path: the two requests of the mock above
    leave different journals. *)
Lemma journal_shows_asset_path :
  journal (MockAuthService.app Scenario.mock_env
             (Scenario.get "/auth/managers/report.txt" (Some Scenario.manager_token)))
  !! 2%nat = Some "  Asset: report.txt"
  ∧ journal (MockAuthService.app Scenario.mock_env
               (Scenario.get "/auth/managers/2025/q3/report.txt"
                  (Some Scenario.manager_token)))
    !! 2%nat = Some "  Asset: 2025/q3/report.txt".
Proof. split; vm_compute; reflexivity. Qed.

(** ** The scenarios of the documentation, end to end *)

(** The mock does not tell an expired token from one with a bad signature:
    its [catch] block answers both with the same body. *)
Lemma mock_answers_expired_like_invalid :
  decision (InlineClaims Scenario.mock_env "managers" "report.txt")
    (Scenario.get "/auth/managers/report.txt"
       (Some (Scenario.signed "HS256" MockAuthService.JWT_SECRET
                (Scenario.test_claims "manager@test.com" ["managers"]
                   (Scenario.noon - 7200)))))
  = {| status := 403; body := "Invalid JWT" |}
  ∧ decision (InlineClaims Scenario.mock_env "managers" "report.txt")
      (Scenario.get "/auth/managers/report.txt"
         (Some (Scenario.signed "HS256" (Jwt.Secret "wrong-secret-key-not-the-real-one")
                  (Scenario.test_claims "attacker@fake.com" ["managers"; "Administrators"]
                     Scenario.noon))))
    = {| status := 403; body := "Invalid JWT" |}.
Proof. split; vm_compute; reflexivity. Qed.

(** The production service on the requests of the README: no cookie; a
    member; a member of another group; an administrator; a stranger. *)
Lemma production_scenarios :
  respond (AssetAuthService.app Scenario.wiki_env
             (Scenario.get "/auth/managers/report.pdf" None))
  = {| status := 403; body := "No JWT token" |}
  ∧ respond (AssetAuthService.app Scenario.wiki_env
               (Scenario.get "/auth/managers/report.pdf"
                  (Some (Scenario.wiki_token 3 "manager@test.com"))))
    = {| status := 200; body := "OK" |}
  ∧ respond (AssetAuthService.app Scenario.wiki_env
               (Scenario.get "/auth/managers/report.pdf"
                  (Some (Scenario.wiki_token 4 "dev@test.com"))))
    = {| status := 403;
         body := "Not in group " +:+ JS.quoted "managers" +:+ " or Administrators" |}
  ∧ respond (AssetAuthService.app Scenario.wiki_env
               (Scenario.get "/auth/finance/budget.xlsx"
                  (Some (Scenario.wiki_token 1 "admin@test.com"))))
    = {| status := 200; body := "OK" |}
  ∧ respond (AssetAuthService.app Scenario.wiki_env
               (Scenario.get "/auth/managers/report.pdf"
                  (Some (Scenario.wiki_token 9 "nobody@test.com"))))
    = {| status := 403; body := "User not found" |}
  ∧ respond (AssetAuthService.app Scenario.wiki_env (Scenario.get "/health" None))
    = {| status := 200; body := "OK" |}.
Proof. repeat split; vm_compute; reflexivity. Qed.

(** What the journal of the production service holds after it allowed the
    manager: the reason stays on the server. *)
Lemma production_journal :
  journal (AssetAuthService.app Scenario.wiki_env
             (Scenario.get "/auth/managers/report.pdf"
                (Some (Scenario.wiki_token 3 "manager@test.com"))))
  = [ "[2025-11-25T12:01:00.000Z] AUTH REQUEST:";
      "  Group: managers";
      "  Asset: report.pdf";
      "  User ID from JWT: 3";
      "  Email from JWT: manager@test.com";
      "  User: manager@test.com";
      "  Result: ✅ ALLOWED (in group " +:+ JS.quoted "managers" +:+ ")" ].
Proof. vm_compute; reflexivity. Qed.

(** * Further properties *)

(** ** Rejected credentials *)

(** X22.  A request whose [jwt] cookie is missing, malformed, expired or
    does not pass signature verification is never allowed, whatever the
    token claims and whatever the database holds: either deployment answers
    403, but for the production service on a cookie whose payload is not
    JSON, which it answers 500. *)
Theorem fail_closed_on_rejected_credential (d : Deployment) (req : Express.Request) :
  rejected d (Express.cookies req !! "jwt") = true →
  status (decision d req) ≠ 200
  ∧ status (decision d req)
    = match d, Express.cookies req !! "jwt" with
      | DbBacked _ _, Some (Jwt.BadPayload _) => 500
      | _, _ => 403
      end.
Proof.
  intros Hrej.
  assert (status (decision d req)
          = match d, Express.cookies req !! "jwt" with
            | DbBacked _ _, Some (Jwt.BadPayload _) => 500
            | _, _ => 403
            end) as Hstatus.
  { rewrite decision_response.
    destruct d as [env params | env groupName assetPath];
      unfold db_backed_response, inline_claims_response;
      destruct (Express.cookies req !! "jwt") as [jwtString|]; try done;
      destruct (negb (Jwt.truthy (Some jwtString))) eqn:Htruthy;
      try (by destruct jwtString);
      apply rejected_verification in Hrej as (err & -> & Hname).
    - destruct jwtString as [raw|message|token];
        [by apply on_error_response_jwt | by subst err | by apply on_error_response_jwt].
    - by destruct jwtString. }
  split; [|done]. rewrite Hstatus. by repeat case_match.
Qed.

(** The spoofed token of the test suite, with claimed membership of
    [managers] and [Administrators], against the production service and
    against the mock. *)
Lemma fail_closed_on_rejected_credential_witness :
  status (decision (DbBacked Scenario.wiki_env (Scenario.file_params "managers" "report.pdf"))
            (Scenario.get "/auth/managers/report.pdf"
               (Some (Jwt.Jws {| Jwt.alg := "HS256";
                                 Jwt.payload := Scenario.wiki_claims 1 "admin@fake.com" 0;
                                 Jwt.signature := Jwt.Garbage "INVALID_SIGNATURE_SHOULD_BE_REJECTED" |}))))
  = 403
  ∧ status (decision (InlineClaims Scenario.mock_env "managers" "report.txt")
            (Scenario.get "/auth/managers/report.txt"
               (Some (Jwt.Jws {| Jwt.alg := "HS256";
                                 Jwt.payload := {| Jwt.id := None; Jwt.email := Some "admin@fake.com";
                                                   Jwt.groups := Some ["managers"; "Administrators"];
                                                   Jwt.iat := None; Jwt.exp := None |};
                                 Jwt.signature := Jwt.Garbage "INVALID_SIGNATURE_SHOULD_BE_REJECTED" |}))))
  = 403.
Proof.
  split;
    (eapply eq_trans;
     [apply fail_closed_on_rejected_credential; vm_compute; reflexivity | reflexivity]).
Defined.

(** ** Tokens of generate-token.js *)

Lemma main_printed seconds_iat seconds_exp userType token :
  GenerateToken.main seconds_iat seconds_exp userType = GenerateToken.Printed token →
  ∃ name mail member_of,
    userType = Some name
    ∧ token = GenerateToken.sign
                {| Jwt.id := None; Jwt.email := mail; Jwt.groups := member_of;
                   Jwt.iat := Some seconds_iat; Jwt.exp := Some (seconds_exp + 3600) |}
                MockAuthService.JWT_SECRET
    ∧ ((∃ user, GenerateToken.users !! name = Some user
                ∧ mail = Some (GenerateToken.email user)
                ∧ member_of = Some (GenerateToken.groups user))
       ∨ (GenerateToken.users !! name = None ∧ mail = None ∧ member_of = None)).
Proof.
  unfold GenerateToken.main. intros Hmain.
  destruct userType as [name|]; [|done].
  destruct (String.eqb name ""); [done|].
  destruct (GenerateToken.users !! name) as [user|] eqn:Hlookup.
  - injection Hmain as <-. exists name. eauto 10.
  - destruct (Jwt.includes GenerateToken.inherited name); [|done].
    injection Hmain as <-. exists name. eauto 10.
Qed.

(** What the mock's [jwt.verify] answers for a token of the generator. *)
Lemma mock_verifies_generated env g a payload :
  verification (InlineClaims env g a)
    (GenerateToken.sign payload MockAuthService.JWT_SECRET)
  = match Jwt.exp payload with
    | Some e =>
        if e <=? MockAuthService.now env
        then inl (JS.TokenExpiredError "jwt expired")
        else inr payload
    | None => inr payload
    end.
Proof.
  unfold verification, GenerateToken.sign. simpl.
  unfold Jwt.jws_verify. simpl.
  by rewrite !bool_decide_eq_true_2.
Qed.

(** X1.  A token that generate-token.js prints for a user of its table opens,
    at the mock and until an hour after the clock reading of its [exp]
    claim, exactly the groups of that user, and every group when the user is
    in [Administrators]; for any other group the answer is 403
    [Access denied]. *)
Theorem generated_token_opens_its_groups (seconds_iat seconds_exp : Z) (name : string)
    (user : GenerateToken.User) (token : Jwt.Credential)
    (env : MockAuthService.Env) (g a : string) (req : Express.Request) :
  GenerateToken.users !! name = Some user →
  GenerateToken.main seconds_iat seconds_exp (Some name) = GenerateToken.Printed token →
  Express.cookies req !! "jwt" = Some token →
  MockAuthService.now env < seconds_exp + 3600 →
  decision (InlineClaims env g a) req
  = if bool_decide (g ∈ GenerateToken.groups user
                    ∨ "Administrators" ∈ GenerateToken.groups user)
    then {| status := 200; body := "OK" |}
    else {| status := 403; body := "Access denied" |}.
Proof.
  intros Huser Hmain Hcookie Hfresh.
  apply main_printed in Hmain
    as (name' & mail & member_of & [= <-] & -> & [(user' & Huser' & -> & ->) | (Hnone & _)]);
    [|congruence].
  assert (user' = user) as -> by congruence.
  rewrite decision_response. unfold inline_claims_response.
  rewrite Hcookie, mock_verifies_generated. cbn [Jwt.truthy negb GenerateToken.sign Jwt.exp].
  apply Z.leb_gt in Hfresh. rewrite Hfresh. cbn [Jwt.groups].
  case_bool_decide as Hmember.
  - assert (Jwt.includes (GenerateToken.groups user) "Administrators"
            || Jwt.includes (GenerateToken.groups user) g = true) as ->; [|done].
    apply orb_true_iff. rewrite !includes_elem_of. tauto.
  - assert (Jwt.includes (GenerateToken.groups user) "Administrators"
            || Jwt.includes (GenerateToken.groups user) g = false) as ->; [|done].
    apply orb_false_iff.
    split; apply not_true_is_false; rewrite includes_elem_of; tauto.
Qed.

(** The developer's token, ten minutes old, for a nested file of
    [developers]. *)
Lemma generated_token_opens_its_groups_witness :
  decision (InlineClaims Scenario.mock_env "developers" "project1/diagram.txt")
    (Scenario.get "/auth/developers/project1/diagram.txt"
       (Some (GenerateToken.sign
                (Scenario.test_claims "dev@test.com" ["developers"; "managers"]
                   (Scenario.noon - 540))
                MockAuthService.JWT_SECRET)))
  = {| status := 200; body := "OK" |}.
Proof.
  refine (eq_trans
            (generated_token_opens_its_groups (Scenario.noon - 540) (Scenario.noon - 540)
               "dev"
               {| GenerateToken.email := "dev@test.com";
                  GenerateToken.groups := ["developers"; "managers"] |}
               (GenerateToken.sign
                  (Scenario.test_claims "dev@test.com" ["developers"; "managers"]
                     (Scenario.noon - 540))
                  MockAuthService.JWT_SECRET)
               Scenario.mock_env "developers" "project1/diagram.txt"
               (Scenario.get "/auth/developers/project1/diagram.txt" _) _ _ _ _) _);
    vm_compute; reflexivity.
Defined.

(** X2.  An hour after the clock reading of its [exp] claim, a token of
    generate-token.js opens nothing at the mock: the answer is 403
    [Invalid JWT] for every group, also for the administrator. *)
Theorem generated_token_expires (seconds_iat seconds_exp : Z) (userType : option string)
    (token : Jwt.Credential) (env : MockAuthService.Env) (g a : string)
    (req : Express.Request) :
  GenerateToken.main seconds_iat seconds_exp userType = GenerateToken.Printed token →
  Express.cookies req !! "jwt" = Some token →
  seconds_exp + 3600 ≤ MockAuthService.now env →
  decision (InlineClaims env g a) req = {| status := 403; body := "Invalid JWT" |}.
Proof.
  intros Hmain Hcookie Hstale.
  apply main_printed in Hmain as (name & mail & member_of & _ & -> & _).
  rewrite decision_response. unfold inline_claims_response.
  rewrite Hcookie, mock_verifies_generated. cbn [Jwt.truthy negb GenerateToken.sign Jwt.exp].
  apply Z.leb_le in Hstale. by rewrite Hstale.
Qed.

(** The administrator's token, used two hours after it was made. *)
Lemma generated_token_expires_witness :
  decision (InlineClaims Scenario.mock_env "finance" "budget.txt")
    (Scenario.get "/auth/finance/budget.txt"
       (Some (GenerateToken.sign
                (Scenario.test_claims "admin@test.com" ["Administrators"]
                   (Scenario.noon - 7200))
                MockAuthService.JWT_SECRET)))
  = {| status := 403; body := "Invalid JWT" |}.
Proof.
  refine (generated_token_expires (Scenario.noon - 7200) (Scenario.noon - 7200)
            (Some "admin")
            (GenerateToken.sign
               (Scenario.test_claims "admin@test.com" ["Administrators"]
                  (Scenario.noon - 7200))
               MockAuthService.JWT_SECRET)
            Scenario.mock_env "finance" "budget.txt"
            (Scenario.get "/auth/finance/budget.txt" _) _ _ _);
    [vm_compute; reflexivity .. | vm_compute; discriminate].
Defined.

(** X3.  No token of generate-token.js is accepted by the production
    service, whatever its key, database and clock: the tokens are signed
    with HS256, and the answer is 403 [Invalid JWT signature]. *)
Theorem generated_token_useless_in_production (seconds_iat seconds_exp : Z)
    (userType : option string) (token : Jwt.Credential)
    (env : AssetAuthService.Env) (params : Express.Params) (req : Express.Request) :
  GenerateToken.main seconds_iat seconds_exp userType = GenerateToken.Printed token →
  Express.cookies req !! "jwt" = Some token →
  decision (DbBacked env params) req
  = {| status := 403; body := "Invalid JWT signature" |}.
Proof.
  intros Hmain Hcookie.
  apply main_printed in Hmain as (name & mail & member_of & _ & -> & _).
  rewrite decision_response. unfold db_backed_response.
  by rewrite Hcookie.
Qed.

(** The test administrator's token, sent to the production service. *)
Lemma generated_token_useless_in_production_witness :
  decision (DbBacked Scenario.wiki_env (Scenario.file_params "managers" "report.pdf"))
    (Scenario.get "/auth/managers/report.pdf"
       (Some (GenerateToken.sign
                (Scenario.test_claims "admin@test.com" ["Administrators"] Scenario.noon)
                MockAuthService.JWT_SECRET)))
  = {| status := 403; body := "Invalid JWT signature" |}.
Proof.
  refine (generated_token_useless_in_production Scenario.noon Scenario.noon (Some "admin")
            (GenerateToken.sign
               (Scenario.test_claims "admin@test.com" ["Administrators"] Scenario.noon)
               MockAuthService.JWT_SECRET)
            Scenario.wiki_env (Scenario.file_params "managers" "report.pdf")
            (Scenario.get "/auth/managers/report.pdf" _) _ _);
    vm_compute; reflexivity.
Defined.

(** X4.  generate-token.js prints a token only for a name it finds in
    [users]; for a name that is found there through [Object.prototype] only
    (such as [constructor]), the token has no [groups] claim and the mock
    answers 403 [Invalid JWT] for every group at every time. *)
Theorem token_outside_table_opens_nothing (seconds_iat seconds_exp : Z) (name : string)
    (token : Jwt.Credential) (env : MockAuthService.Env) (g a : string)
    (req : Express.Request) :
  GenerateToken.users !! name = None →
  GenerateToken.main seconds_iat seconds_exp (Some name) = GenerateToken.Printed token →
  Express.cookies req !! "jwt" = Some token →
  Jwt.includes GenerateToken.inherited name = true
  ∧ decision (InlineClaims env g a) req = {| status := 403; body := "Invalid JWT" |}.
Proof.
  intros Hnone Hmain Hcookie.
  split.
  - unfold GenerateToken.main in Hmain. rewrite Hnone in Hmain.
    destruct (String.eqb name ""); [done|].
    by destruct (Jwt.includes GenerateToken.inherited name).
  - apply main_printed in Hmain
      as (name' & mail & member_of & [= <-] & -> & [(user & Huser & _) | (_ & -> & ->)]);
      [congruence|].
    rewrite decision_response. unfold inline_claims_response.
    rewrite Hcookie, mock_verifies_generated. cbn [Jwt.truthy negb GenerateToken.sign Jwt.exp].
    by destruct (_ <=? _).
Qed.

(** The generator run with [constructor]. *)
Lemma token_outside_table_opens_nothing_witness :
  Jwt.includes GenerateToken.inherited "constructor" = true
  ∧ decision (InlineClaims Scenario.mock_env "managers" "report.txt")
      (Scenario.get "/auth/managers/report.txt"
         (Some (GenerateToken.sign
                  {| Jwt.id := None; Jwt.email := None; Jwt.groups := None;
                     Jwt.iat := Some Scenario.noon;
                     Jwt.exp := Some (Scenario.noon + 3600) |}
                  MockAuthService.JWT_SECRET)))
    = {| status := 403; body := "Invalid JWT" |}.
Proof.
  refine (token_outside_table_opens_nothing Scenario.noon Scenario.noon "constructor"
            (GenerateToken.sign
               {| Jwt.id := None; Jwt.email := None; Jwt.groups := None;
                  Jwt.iat := Some Scenario.noon;
                  Jwt.exp := Some (Scenario.noon + 3600) |}
               MockAuthService.JWT_SECRET)
            Scenario.mock_env "managers" "report.txt"
            (Scenario.get "/auth/managers/report.txt" _) _ _ _);
    vm_compute; reflexivity.
Defined.

(** ** The production service, end to end *)

(** X5.  The production service allows a token of Wiki.js: a token signed
    with RS256 for the public key the service holds, not expired, whose [id]
    is a user of the required group or of [Administrators], gets 200 [OK]
    when the database answers. *)
Theorem wiki_token_of_member_allowed (env : AssetAuthService.Env)
    (params : Express.Params) (req : Express.Request) (pem : string)
    (claims : Jwt.Payload) (userId : Z) :
  AssetAuthService.JWT_PUBLIC_KEY env = Jwt.RsaPublicKey pem →
  Express.cookies req !! "jwt"
  = Some (Scenario.signed "RS256" (Jwt.RsaPublicKey pem) claims) →
  Jwt.id claims = Some userId →
  userId ≠ 0 →
  (∀ e, Jwt.exp claims = Some e → AssetAuthService.now env < e) →
  Pg.fault (AssetAuthService.pool env) 0 = None →
  Express.groupName params ∈ Pg.memberships (Pg.tables (AssetAuthService.pool env)) userId
  ∨ "Administrators" ∈ Pg.memberships (Pg.tables (AssetAuthService.pool env)) userId →
  decision (DbBacked env params) req = {| status := 200; body := "OK" |}.
Proof.
  intros Hkey Hcookie Hid Hnonzero Hfresh Hstore Hmember.
  apply (member_allowed (DbBacked env params) req _ claims
           (Pg.memberships (Pg.tables (AssetAuthService.pool env)) userId) Hcookie);
    try done.
  - apply accepted_verification.
    unfold rejected, Scenario.signed, Jwt.signature_verifies, Jwt.jws_verify, Jwt.expired.
    cbn [verification_key verification_options clock Jwt.alg Jwt.payload Jwt.signature].
    rewrite Hkey. rewrite !bool_decide_eq_true_2 by done. simpl.
    destruct (Jwt.exp claims) as [e|]; [|done].
    apply Z.leb_gt. by apply Hfresh.
  - simpl. rewrite Hid. apply Z.eqb_neq in Hnonzero. by rewrite Hnonzero.
Qed.

(** The manager of the scenario database, with the token Wiki.js gave. *)
Lemma wiki_token_of_member_allowed_witness :
  decision (DbBacked Scenario.wiki_env (Scenario.file_params "managers" "report.pdf"))
    (Scenario.get "/auth/managers/report.pdf"
       (Some (Scenario.wiki_token 3 "manager@test.com")))
  = {| status := 200; body := "OK" |}.
Proof.
  refine (wiki_token_of_member_allowed Scenario.wiki_env
            (Scenario.file_params "managers" "report.pdf")
            (Scenario.get "/auth/managers/report.pdf"
               (Some (Scenario.wiki_token 3 "manager@test.com")))
            "wiki.js certs.public"
            (Scenario.wiki_claims 3 "manager@test.com" (Scenario.noon + 1800))
            3 _ _ _ _ _ _ _);
    try (vm_compute; reflexivity).
  - lia.
  - intros e [= <-]. vm_compute. reflexivity.
  - left. vm_compute. by left.
Defined.

Lemma authenticateRequest_queries env params req :
  queries_sent (AssetAuthService.authenticateRequest env params req)
  = match Express.cookies req !! "jwt" with
    | None => 0%nat
    | Some jwtString =>
        if negb (Jwt.truthy (Some jwtString)) then 0%nat
        else
          match verification (DbBacked env params) jwtString with
          | inl _ => 0%nat
          | inr decoded =>
              match Jwt.id decoded with
              | Some userId =>
                  if userId =? 0 then 0%nat
                  else
                    match Pg.fault (AssetAuthService.pool env) 0 with
                    | Some _ => 1%nat
                    | None =>
                        match Pg.select_membership (Pg.tables (AssetAuthService.pool env))
                                userId (Express.groupName params) with
                        | _ :: _ => 1%nat
                        | [] => 2%nat
                        end
                    end
              | None => 0%nat
              end
          end
    end.
Proof.
  unfold queries_sent, verification, clock, verification_key, verification_options.
  unfold_handler.
  destruct (Express.cookies req !! "jwt") as [jwtString|] eqn:Hcookie; [|done].
  destruct (Jwt.truthy (Some jwtString)); [|done].
  unfold_handler; cbn [negb].
  destruct (Jwt.verify _ jwtString _ _) as [err|decoded]; unfold_handler.
  - destruct (String.eqb (JS.name err) "JsonWebTokenError"); [done|].
    destruct (String.eqb (JS.name err) "TokenExpiredError"); done.
  - destruct (Jwt.id decoded) as [userId|]; [|done].
    destruct (userId =? 0); [done|].
    unfold_handler.
    destruct (Pg.fault (AssetAuthService.pool env) 0); [done|].
    destruct (Pg.select_membership _ userId _) as [|user ?]; unfold_handler.
    + destruct (Pg.fault (AssetAuthService.pool env) 1); [done|].
      destruct (Pg.select_user _ userId); done.
    + destruct (String.eqb (Pg.group_name user) "Administrators"); done.
Qed.

(** X6.  The production handler spares the database: it sends no query for
    a credential that is missing, malformed, expired or not verified, one
    query when it allows, and never more than two. *)
Theorem database_spared (env : AssetAuthService.Env) (params : Express.Params)
    (req : Express.Request) :
  (rejected (DbBacked env params) (Express.cookies req !! "jwt") = true →
   queries_sent (AssetAuthService.authenticateRequest env params req) = 0%nat)
  ∧ (status (decision (DbBacked env params) req) = 200 →
     queries_sent (AssetAuthService.authenticateRequest env params req) = 1%nat)
  ∧ (queries_sent (AssetAuthService.authenticateRequest env params req) ≤ 2)%nat.
Proof.
  rewrite authenticateRequest_queries, decision_response.
  unfold db_backed_response, membership_response, on_error_response.
  destruct (Express.cookies req !! "jwt") as [jwtString|] eqn:Hcookie;
    [|repeat split; (done || lia)].
  destruct (negb (Jwt.truthy (Some jwtString))); [repeat split; (done || lia)|].
  split; [|split].
  - intros Hrej. by apply rejected_verification in Hrej as (err & -> & _).
  - destruct (verification _ jwtString) as [err|decoded].
    + by repeat (case_match; try done).
    + repeat (case_match; try done).
  - repeat (case_match; try lia).
Qed.

(** A request without cookie and a request of the manager, both for
    [managers/report.pdf]. *)
Lemma database_spared_witness :
  queries_sent (AssetAuthService.authenticateRequest Scenario.wiki_env
                  (Scenario.file_params "managers" "report.pdf")
                  (Scenario.get "/auth/managers/report.pdf" None)) = 0%nat
  ∧ queries_sent (AssetAuthService.authenticateRequest Scenario.wiki_env
                    (Scenario.file_params "managers" "report.pdf")
                    (Scenario.get "/auth/managers/report.pdf"
                       (Some (Scenario.wiki_token 3 "manager@test.com")))) = 1%nat.
Proof.
  split.
  - apply (proj1 (database_spared _ _ _)). vm_compute. reflexivity.
  - apply (proj1 (proj2 (database_spared _ _ _))). vm_compute. reflexivity.
Defined.

(** ** The console *)

(** X7.  The journal agrees with the response.  Either handler ends every
    request with a [Result:] line, and that line says [ALLOWED] exactly when
    the response is 200: the reason of a decision is always on the console,
    and never contradicts what was sent. *)
Theorem journal_agrees_with_response :
  (∀ env params req,
     ∃ line,
       last_line (AssetAuthService.authenticateRequest env params req) = Some line
       ∧ String.prefix "  Result: " line = true
       ∧ (String.prefix "  Result: ✅ ALLOWED" line = true
          ↔ status (respond (AssetAuthService.authenticateRequest env params req)) = 200))
  ∧ (∀ env groupName assetPath req,
       ∃ line,
         last_line (MockAuthService.handler env groupName assetPath req) = Some line
         ∧ String.prefix "  Result: " line = true
         ∧ (String.prefix "  Result: ✅ ALLOWED" line = true
            ↔ status (respond (MockAuthService.handler env groupName assetPath req)) = 200)).
Proof.
  split.
  - intros env params req. unfold last_line, journal. unfold_handler.
    destruct (Express.cookies req !! "jwt") as [jwtString|] eqn:Hcookie;
      [|by eexists; split; [reflexivity|]].
    destruct (Jwt.truthy (Some jwtString)); [|by eexists; split; [reflexivity|]].
    unfold_handler; cbn [negb].
    destruct (Jwt.verify _ jwtString _ _) as [err|decoded]; unfold_handler.
    + destruct (String.eqb (JS.name err) "JsonWebTokenError");
        [by eexists; split; [reflexivity|]|].
      destruct (String.eqb (JS.name err) "TokenExpiredError");
        by eexists; split; [reflexivity|].
    + destruct (Jwt.id decoded) as [userId|]; [|by eexists; split; [reflexivity|]].
      destruct (userId =? 0); [by eexists; split; [reflexivity|]|].
      unfold_handler.
      destruct (Pg.fault (AssetAuthService.pool env) 0);
        [by eexists; split; [reflexivity|]|].
      destruct (Pg.select_membership _ userId _) as [|user ?]; unfold_handler.
      * destruct (Pg.fault (AssetAuthService.pool env) 1);
          [by eexists; split; [reflexivity|]|].
        destruct (Pg.select_user _ userId); by eexists; split; [reflexivity|].
      * destruct (String.eqb (Pg.group_name user) "Administrators");
          by eexists; split; [reflexivity|].
  - intros env groupName assetPath req. unfold last_line, journal. unfold_handler.
    destruct (Express.cookies req !! "jwt") as [jwtString|] eqn:Hcookie;
      [|by eexists; split; [reflexivity|]].
    destruct (Jwt.truthy (Some jwtString)); [|by eexists; split; [reflexivity|]].
    unfold_handler; cbn [negb].
    destruct (Jwt.verify _ jwtString _ _) as [err|decoded]; unfold_handler;
      [by eexists; split; [reflexivity|]|].
    destruct (Jwt.groups decoded) as [l|]; [|by eexists; split; [reflexivity|]].
    destruct (Jwt.includes l "Administrators") eqn:Hadmin; unfold_handler;
      [by eexists; split; [reflexivity|]|].
    destruct (Jwt.includes l groupName); by eexists; split; [reflexivity|].
Qed.

(** ** Unknown users, and tokens without groups *)

Lemma select_user_rows db userId :
  Pg.select_user db userId = [] ↔ ∀ u, u ∈ Pg.users db → Pg.u_id u ≠ userId.
Proof.
  unfold Pg.select_user. induction (Pg.users db) as [|u rest IH]; simpl.
  - split; [|done]. intros _ u Hu. by apply elem_of_nil in Hu.
  - destruct (Pg.u_id u =? userId) eqn:Hid; simpl.
    + split; [done|]. intros Hall. apply Z.eqb_eq in Hid.
      by destruct (Hall u (list_elem_of_here _ _)).
    + rewrite IH. apply Z.eqb_neq in Hid. split.
      * intros Hall v [-> | Hv]%elem_of_cons; auto.
      * intros Hall v Hv. apply Hall. by right.
Qed.

Lemma select_user_found db userId :
  Pg.select_user db userId ≠ [] ↔ ∃ u, u ∈ Pg.users db ∧ Pg.u_id u = userId.
Proof.
  unfold Pg.select_user. induction (Pg.users db) as [|u rest IH]; simpl.
  - split; [done|]. intros (u & Hu & _). by apply elem_of_nil in Hu.
  - destruct (Pg.u_id u =? userId) eqn:Hid; simpl.
    + split; [|done]. intros _. exists u. apply Z.eqb_eq in Hid. split; [by left|done].
    + rewrite IH. apply Z.eqb_neq in Hid. split.
      * intros (v & Hv & Heq). exists v. split; [by right|done].
      * intros (v & [-> | Hv]%elem_of_cons & Heq); [done|]. eauto.
Qed.

(** X8.  The production service tells an unknown user from a known user of
    the wrong group: for a verified token whose user is neither in the
    required group nor in [Administrators], with the database answering,
    the body is [User not found] exactly when no row of [users] has the id
    of the token, and names the group otherwise; the status is 403 in both
    cases. *)
Theorem user_not_found_iff_no_row (env : AssetAuthService.Env) (params : Express.Params)
    (req : Express.Request) (jwtString : Jwt.Credential) (decoded : Jwt.Payload)
    (userId : Z) :
  Express.cookies req !! "jwt" = Some jwtString →
  verification (DbBacked env params) jwtString = inr decoded →
  Jwt.id decoded = Some userId →
  userId ≠ 0 →
  (∀ n, Pg.fault (AssetAuthService.pool env) n = None) →
  ¬ (Express.groupName params ∈ Pg.memberships (Pg.tables (AssetAuthService.pool env)) userId
     ∨ "Administrators" ∈ Pg.memberships (Pg.tables (AssetAuthService.pool env)) userId) →
  status (decision (DbBacked env params) req) = 403
  ∧ (body (decision (DbBacked env params) req) = "User not found"
     ↔ ∀ u, u ∈ Pg.users (Pg.tables (AssetAuthService.pool env)) → Pg.u_id u ≠ userId)
  ∧ (body (decision (DbBacked env params) req)
     = "Not in group " +:+ JS.quoted (Express.groupName params) +:+ " or Administrators"
     ↔ ∃ u, u ∈ Pg.users (Pg.tables (AssetAuthService.pool env)) ∧ Pg.u_id u = userId).
Proof.
  intros Hcookie Hverify Hid Hnonzero Hstore Hmember.
  rewrite decision_response. unfold db_backed_response.
  rewrite Hcookie, (verified_is_truthy _ _ _ Hverify), Hverify, Hid.
  apply Z.eqb_neq in Hnonzero. rewrite Hnonzero. cbn [negb].
  unfold membership_response. rewrite !Hstore.
  rewrite <- select_membership_rows in Hmember.
  destruct (Pg.select_membership _ userId _); [|by destruct Hmember].
  pose proof (select_user_rows (Pg.tables (AssetAuthService.pool env)) userId) as Hrows.
  destruct (Pg.select_user _ userId) as [|mail rest] eqn:Hselect; simpl.
  - split; [done|]. split; [tauto|].
    split; [done|]. intros (u & Hu & Hu'). exfalso. by apply (proj1 Hrows eq_refl u).
  - split; [done|]. split.
    + split; [done|]. intros Hall. by apply Hrows in Hall.
    + split; [|done]. intros _.
      apply select_user_found. by rewrite Hselect.
Qed.

(** A token of Wiki.js for user 9, who is not in the scenario database. *)
Lemma user_not_found_iff_no_row_witness :
  status (decision (DbBacked Scenario.wiki_env (Scenario.file_params "managers" "report.pdf"))
            (Scenario.get "/auth/managers/report.pdf"
               (Some (Scenario.wiki_token 9 "nobody@test.com")))) = 403.
Proof.
  refine (proj1 (user_not_found_iff_no_row Scenario.wiki_env
                   (Scenario.file_params "managers" "report.pdf")
                   (Scenario.get "/auth/managers/report.pdf"
                      (Some (Scenario.wiki_token 9 "nobody@test.com")))
                   (Scenario.wiki_token 9 "nobody@test.com")
                   (Scenario.wiki_claims 9 "nobody@test.com" (Scenario.noon + 1800))
                   9 _ _ _ _ _ _));
    try (vm_compute; reflexivity).
  - lia.
  - vm_compute. intros [H | H]; inversion H.
Defined.

(** X10.  The mock denies a verified token that has no [groups] claim: the
    [TypeError] of [decoded.groups.includes] is caught, and the answer is 403
    [Invalid JWT] for every group. *)
Theorem token_without_groups_denied (env : MockAuthService.Env)
    (groupName assetPath : string) (req : Express.Request)
    (jwtString : Jwt.Credential) (decoded : Jwt.Payload) :
  Express.cookies req !! "jwt" = Some jwtString →
  verification (InlineClaims env groupName assetPath) jwtString = inr decoded →
  Jwt.groups decoded = None →
  decision (InlineClaims env groupName assetPath) req
  = {| status := 403; body := "Invalid JWT" |}
  ∧ last_line (MockAuthService.handler env groupName assetPath req)
    = Some "  Result: ❌ DENIED (invalid JWT: Cannot read properties of undefined (reading 'includes'))".
Proof.
  intros Hcookie Hverify Hgroups. split.
  - rewrite decision_response. unfold inline_claims_response.
    by rewrite Hcookie, (verified_is_truthy _ _ _ Hverify), Hverify, Hgroups.
  - unfold last_line, journal. unfold verification in Hverify. simpl in Hverify.
    unfold_handler.
    rewrite Hcookie, (verified_is_truthy (InlineClaims env groupName assetPath) _ _ Hverify).
    cbn [negb]. rewrite Hverify. unfold_handler. rewrite Hgroups. reflexivity.
Qed.

(** A token of Wiki.js, which carries an [id] and no [groups], signed with
    the secret of the mock. *)
Lemma token_without_groups_denied_witness :
  decision (InlineClaims Scenario.mock_env "managers" "report.txt")
    (Scenario.get "/auth/managers/report.txt"
       (Some (Scenario.signed "HS256" MockAuthService.JWT_SECRET
                (Scenario.wiki_claims 3 "manager@test.com" (Scenario.noon + 1800)))))
  = {| status := 403; body := "Invalid JWT" |}.
Proof.
  refine (proj1 (token_without_groups_denied Scenario.mock_env "managers" "report.txt"
                   (Scenario.get "/auth/managers/report.txt" _)
                   (Scenario.signed "HS256" MockAuthService.JWT_SECRET
                      (Scenario.wiki_claims 3 "manager@test.com" (Scenario.noon + 1800)))
                   (Scenario.wiki_claims 3 "manager@test.com" (Scenario.noon + 1800))
                   _ _ _));
    vm_compute; reflexivity.
Defined.

(** ** The health check *)

Lemma health_is_not_auth ci p :
  Express.match_health p = true → Express.strip ci "/auth/" p = None.
Proof.
  intros Hhealth.
  destruct (Express.strip ci "/auth/" p) as [rest|] eqn:Hstrip; [|done].
  by rewrite (auth_is_not_health _ _ _ Hstrip) in Hhealth.
Qed.

(** X9.  The health check needs nothing: a request for [/health] (in any
    letter case, with or without a trailing slash) is answered 200 [OK] by
    either service whatever the cookies, the clock and the state of the
    database, without a query and without a line on the console. *)
Theorem health_needs_nothing (req : Express.Request) :
  Express.match_health (Express.path req) = true →
  (∀ env,
     respond (AssetAuthService.app env req) = {| status := 200; body := "OK" |}
     ∧ queries_sent (AssetAuthService.app env req) = 0%nat
     ∧ journal (AssetAuthService.app env req) = [])
  ∧ (∀ env,
       respond (MockAuthService.app env req) = {| status := 200; body := "OK" |}
       ∧ journal (MockAuthService.app env req) = []).
Proof.
  intros Hhealth.
  pose proof (health_is_not_auth true _ Hhealth) as Hci.
  pose proof (health_is_not_auth false _ Hhealth) as Hcs.
  split; intros env.
  - unfold AssetAuthService.app, AssetAuthService.route, Express.match_auth_file,
      Express.match_auth_dir, Express.auth_file_pattern, Express.auth_dir_pattern.
    by rewrite Hci, Hhealth.
  - unfold MockAuthService.app, Express.match_auth_regex, Express.auth_regex_pattern.
    by rewrite Hcs, Hhealth.
Qed.

(** The probe while the database refuses connections. *)
Lemma health_needs_nothing_witness :
  respond (AssetAuthService.app Scenario.wiki_env_store_down (Scenario.get "/health" None))
  = {| status := 200; body := "OK" |}.
Proof.
  apply (proj1 (health_needs_nothing (Scenario.get "/health" None) eq_refl)).
Defined.

(** ** Nested asset paths in production *)

(** The administrator asks the production service for a file in a
    subfolder. *)
Lemma nested_asset_path_never_routed_witness :
  status (respond (AssetAuthService.app Scenario.wiki_env
                     (Scenario.get "/auth/managers/2025/report.pdf"
                        (Some (Scenario.wiki_token 1 "admin@test.com")))))
  = 404.
Proof.
  apply (nested_asset_path_never_routed Scenario.wiki_env _ "managers" "2025" "report.pdf");
    try reflexivity; done.
Defined.

(** ** Startup *)

(** X11.  Startup is fatal without the certificates.  When the server
    listens, it listens on port 3002, the query was answered, the first
    [certs] row of [settings] held JSON other than [null], and the key in
    use is the [public] member of that value (which may be undefined).  In
    every other case (store failure, no [certs] row, text that is not JSON,
    [null]) the process exits with code 1 and never listens. *)
Theorem startup_fatal_without_certs (store : Startup.Store) :
  match Startup.startServer store with
  | Startup.Listening port loaded _ =>
      port = 3002
      ∧ Startup.fault store = None
      ∧ ∃ row rest certsData,
          Startup.select_certs store = row :: rest
          ∧ row ∈ Startup.settings store
          ∧ Startup.key row = "certs"
          ∧ Startup.value row = inr certsData
          ∧ certsData ≠ Startup.JNull
          ∧ Startup.public certsData = inr loaded
  | Startup.Exited code _ =>
      code = 1
      ∧ (is_Some (Startup.fault store)
         ∨ (∀ row, row ∈ Startup.settings store → Startup.key row ≠ "certs")
         ∨ ∃ row rest,
             Startup.select_certs store = row :: rest
             ∧ ((∃ msg, Startup.value row = inl msg)
                ∨ Startup.value row = inr Startup.JNull))
  end.
Proof.
  unfold Startup.startServer, Startup.load_key.
  destruct (Startup.fault store) as [msg|] eqn:Hfault.
  { split; [done|]. left. eauto. }
  destruct (Startup.select_certs store) as [|row rest] eqn:Hrows.
  { split; [done|]. right. left. intros row Hrow Hkey.
    assert (row ∈ Startup.select_certs store) as Hin.
    { unfold Startup.select_certs. by apply list_elem_of_filter. }
    rewrite Hrows in Hin. by apply elem_of_nil in Hin. }
  assert (row ∈ Startup.select_certs store) as Hin by (rewrite Hrows; by left).
  unfold Startup.select_certs in Hin. apply list_elem_of_filter in Hin as [Hkey Hin].
  destruct (Startup.value row) as [msg|certsData] eqn:Hvalue.
  { split; [done|]. right. right. exists row, rest. split; [done|].
    left. eauto. }
  destruct (Startup.public certsData) as [msg|loaded] eqn:Hpublic.
  - split; [done|]. right. right. exists row, rest. split; [done|].
    right. by destruct certsData.
  - split; [done|]. split; [done|].
    exists row, rest, certsData. repeat split; try done.
    by intros ->.
Qed.

(** ** The blob of secure-content.js *)

Lemma set_fits (source target : SecureContent.bytes) (offset : nat) :
  (offset + length source ≤ length target)%nat →
  SecureContent.set source offset target
  = Some (take offset target ++ source ++ drop (offset + length source) target)%list.
Proof.
  intros Hfit. unfold SecureContent.set.
  apply Nat.leb_le in Hfit. by rewrite Hfit.
Qed.

(** The three [set] calls of [encrypt] never leave the array, and fill it
    with the salt, the IV and the ciphertext one after the other. *)
Lemma combine_layout (salt iv ciphertext : SecureContent.bytes) :
  SecureContent.combine salt iv ciphertext = Some (salt ++ iv ++ ciphertext)%list.
Proof.
  unfold SecureContent.combine, SecureContent.zeros. simpl.
  rewrite set_fits by (rewrite length_replicate; lia).
  rewrite take_0, drop_replicate. simpl.
  rewrite set_fits by (rewrite length_app, length_replicate; lia).
  rewrite take_app_length, drop_app_add, drop_replicate. simpl.
  rewrite set_fits by (rewrite !length_app, length_replicate; lia).
  rewrite (app_assoc salt iv), <- length_app.
  rewrite take_app_length, drop_app_add, drop_replicate.
  match goal with
  | |- context [replicate ?n _] => replace n with 0%nat by (rewrite ?length_app; lia)
  end.
  simpl. by rewrite app_nil_r, <- app_assoc.
Qed.

(** X12.  [decrypt] undoes [encrypt].  With a salt of 16 bytes and an IV of
    12 bytes, the array writes of [encrypt] stay in bounds, so that
    [encrypt] returns a blob whenever the call of [String.fromCharCode]
    takes the salt, the IV and the ciphertext as its arguments, and throws
    its [RangeError] otherwise.  On a platform whose base64, cipher and text
    codec undo their own work, [decrypt] of a blob that [encrypt] returned,
    with the same passphrase, returns the plaintext. *)
Theorem decrypt_undoes_encrypt (pf : SecureContent.Platform)
    (salt iv : SecureContent.bytes) (plaintext passphrase : string) :
  length salt = SecureContent.saltLength →
  length iv = SecureContent.ivLength →
  (∀ b blob, SecureContent.btoa pf b = Some blob → SecureContent.atob pf blob = Some b) →
  (∀ key nonce data,
     SecureContent.aes_gcm_decrypt pf key nonce SecureContent.tagLength
       (SecureContent.aes_gcm_encrypt pf key nonce SecureContent.tagLength data)
     = Some data) →
  SecureContent.decode pf (SecureContent.encode pf plaintext) = plaintext →
  SecureContent.encrypt pf salt iv plaintext passphrase
  = SecureContent.btoa pf
      (salt ++ iv
       ++ SecureContent.aes_gcm_encrypt pf (SecureContent.deriveKey pf passphrase salt) iv
            SecureContent.tagLength (SecureContent.encode pf plaintext))%list
  ∧ ∀ blob,
      SecureContent.encrypt pf salt iv plaintext passphrase = Some blob →
      SecureContent.decrypt pf blob passphrase = inr plaintext.
Proof.
  intros Hsalt Hiv Hbase64 Hcipher Htext.
  unfold SecureContent.encrypt. rewrite combine_layout. simpl.
  split; [done|]. intros blob Hblob.
  unfold SecureContent.decrypt. rewrite (Hbase64 _ _ Hblob).
  rewrite <- Hsalt at 1 2. rewrite take_app_length, drop_app_length.
  rewrite <- Hiv at 1. rewrite take_app_length.
  rewrite (app_assoc salt iv), <- Hsalt, <- Hiv, <- length_app, drop_app_length.
  by rewrite Hcipher, Htext.
Qed.

Lemma toy_cipher_undone (key nonce data : SecureContent.bytes) (bits : N) :
  SecureContent.aes_gcm_decrypt SecureContent.toy key nonce bits
    (SecureContent.aes_gcm_encrypt SecureContent.toy key nonce bits data)
  = Some data.
Proof.
  simpl. unfold SecureContent.toy_decrypt.
  assert (length (SecureContent.toy_tag key nonce) = 16%nat) as Htag.
  { unfold SecureContent.toy_tag, SecureContent.zeros.
    rewrite length_take, !length_app, length_replicate. lia. }
  rewrite length_app, Htag.
  replace (length data + 16 - 16)%nat with (length data) by lia.
  replace (length data + 16 <? 16)%nat with false by (symmetry; apply Nat.ltb_ge; lia).
  rewrite drop_app_length, take_app_length.
  by rewrite bool_decide_eq_true_2.
Qed.

(** A note encrypted and decrypted on the toy platform. *)
Lemma decrypt_undoes_encrypt_witness :
  ∃ blob,
    SecureContent.encrypt SecureContent.toy
      (SecureContent.zeros 16) (SecureContent.zeros 12) "my secret" "passphrase"
    = Some blob
    ∧ SecureContent.decrypt SecureContent.toy blob "passphrase" = inr "my secret".
Proof.
  destruct (decrypt_undoes_encrypt SecureContent.toy
              (SecureContent.zeros 16) (SecureContent.zeros 12) "my secret" "passphrase")
    as [_ Hdecrypt].
  - reflexivity.
  - reflexivity.
  - intros b blob. simpl.
    destruct (N.of_nat (length b) <=? 65535)%N; [|done].
    intros [= <-]. by rewrite String.list_byte_of_string_of_list_byte.
  - intros key nonce data. apply toy_cipher_undone.
  - apply String.string_of_list_byte_of_string.
  - eexists. split; [vm_compute; reflexivity|].
    apply Hdecrypt. vm_compute. reflexivity.
Defined.

(** X13.  What [decrypt] throws.  A blob that is not base64 makes it throw
    the error of [atob], outside its [try]; a blob of fewer than 44 bytes
    (16 of salt, 12 of IV, 16 of tag) makes it throw the one error it has for
    a wrong passphrase and for corrupted data, whatever the passphrase, on a
    platform whose cipher rejects data shorter than the tag. *)
Theorem decrypt_rejects_short_blob (pf : SecureContent.Platform)
    (blob passphrase : string) :
  (SecureContent.atob pf blob = None →
   SecureContent.decrypt pf blob passphrase = inl SecureContent.InvalidCharacterError)
  ∧ (∀ combined,
       SecureContent.atob pf blob = Some combined →
       (length combined < 44)%nat →
       (∀ key nonce data,
          (length data < 16)%nat →
          SecureContent.aes_gcm_decrypt pf key nonce SecureContent.tagLength data = None) →
       SecureContent.decrypt pf blob passphrase
       = inl (SecureContent.Error
                "Decryption failed - wrong passphrase or corrupted data")).
Proof.
  unfold SecureContent.decrypt. split.
  - by intros ->.
  - intros combined -> Hshort Hcipher.
    rewrite Hcipher; [done|].
    rewrite length_drop. unfold SecureContent.saltLength, SecureContent.ivLength. lia.
Qed.

(** A blob of three bytes on the toy platform. *)
Lemma decrypt_rejects_short_blob_witness :
  SecureContent.decrypt SecureContent.toy "abc" "passphrase"
  = inl (SecureContent.Error "Decryption failed - wrong passphrase or corrupted data").
Proof.
  refine (proj2 (decrypt_rejects_short_blob SecureContent.toy "abc" "passphrase")
            (String.list_byte_of_string "abc") eq_refl _ _).
  - vm_compute. lia.
  - intros key nonce data Hshort. simpl. unfold SecureContent.toy_decrypt.
    apply Nat.ltb_lt in Hshort. by rewrite Hshort.
Defined.

(** ** Behind nginx *)

Lemma mock_routed_answers env groupName assetPath req :
  status (decision (InlineClaims env groupName assetPath) req) = 200
  ∨ status (decision (InlineClaims env groupName assetPath) req) = 403.
Proof.
  rewrite decision_response. unfold inline_claims_response.
  repeat case_match; auto.
Qed.


(** The path of a URL under [/auth/]. *)
Lemma path_of_url_auth rest :
  Express.path_of_url ("/auth/" +:+ rest)
  = if Express.followed rest then Some ("/auth/" +:+ Express.before_query rest) else None.
Proof. reflexivity. Qed.

(** The sub-request of [/auth-validate] is for a path under [/auth/]. *)
Lemma path_of_auth_url r path :
  Express.path_of_url (Nginx.auth_url r) = Some path →
  ∃ rest, path = "/auth/" +:+ rest.
Proof.
  unfold Nginx.auth_url.
  destruct (default _ _) as [group_name asset_path].
  rewrite path_of_url_auth.
  destruct (Express.followed _); [|done].
  intros [= <-]. eauto.
Qed.


Lemma mock_app_unhandled env req rest :
  Express.path req = "/auth/" +:+ rest →
  (∀ params, Express.match_auth_regex (Express.path req) ≠ Express.Matched params) →
  status (respond (MockAuthService.app env req)) = 400
  ∨ status (respond (MockAuthService.app env req)) = 404.
Proof.
  intros Hpath Hroute.
  destruct (Express.match_auth_regex (Express.path req)) as [|val|params] eqn:Hmatch.
  - right. rewrite mock_app_unrouted; [done..|].
    rewrite Hpath. eapply (auth_is_not_health true), strip_append.
  - left. by eapply mock_app_bad_param.
  - by destruct (Hroute params).
Qed.







(** X14.  Behind the nginx of the test environment every denial looks the
    same.  For a request in the secure location, the mock decides for the
    group and the asset path that Express decodes from the path of the
    sub-request: the client gets what [alias] answers when the mock allows,
    and exactly 403 [Access Denied] when it denies, whatever the reason: the
    reason the mock puts in its body does not reach the client.  When the
    path of the sub-request matches no route of the mock, or one of its
    escapes does not decode, the client gets the 500 of nginx. *)
Theorem test_site_denials_uniform (env : MockAuthService.Env)
    (alias : string → Response) (r : Nginx.Request) (path : string) :
  Express.path_of_url (Nginx.auth_url r) = Some path →
  (∀ name, status (alias name) ≠ 403) →
  match Express.match_auth_regex path with
  | Express.Matched (groupName, assetPath) =>
      let sub := decision (InlineClaims env groupName assetPath)
                   {| Express.path := path; Express.cookies := Nginx.http_cookie r |} in
      (status sub = 200
       ∧ Nginx.test_site env alias r
         = Some (alias ((Nginx.location_captures r).1 +:+ "/"
                        +:+ (Nginx.location_captures r).2)))
      ∨ (status sub = 403
         ∧ Nginx.test_site env alias r = Some {| status := 403; body := "Access Denied" |})
  | _ => Nginx.test_site env alias r = Some (Nginx.stock_page 500)
  end.
Proof.
  intros Hpath Halias.
  destruct (path_of_auth_url _ _ Hpath) as [rest Hrest].
  unfold Nginx.test_site, Nginx.secure_location. rewrite Hpath. cbn [mbind option_bind].
  set (req := {| Express.path := path; Express.cookies := Nginx.http_cookie r |}).
  unfold Nginx.auth_request.
  destruct (Express.match_auth_regex path) as [|val|[groupName assetPath]] eqn:Hmatch.
  - destruct (mock_app_unhandled env req rest Hrest) as [-> | ->]; [|done..].
    intros params. cbn [req Express.path]. by rewrite Hmatch.
  - destruct (mock_app_unhandled env req rest Hrest) as [-> | ->]; [|done..].
    intros params. cbn [req Express.path]. by rewrite Hmatch.
  - rewrite (mock_app_routed env req groupName assetPath) by done.
    destruct (mock_routed_answers env groupName assetPath req) as [Hallowed | Hdenied].
    + left. split; [done|]. rewrite Hallowed. simpl.
      specialize (Halias ((Nginx.location_captures r).1 +:+ "/"
                          +:+ (Nginx.location_captures r).2)).
      apply Z.eqb_neq in Halias. by rewrite Halias.
    + right. split; [done|]. by rewrite Hdenied.
Qed.

(** The manager asks the test site for a file of [finance]. *)
Lemma test_site_denials_uniform_witness :
  Nginx.test_site Scenario.mock_env
    (Nginx.serve {[ "finance/budget.txt" := "Finance only" ]})
    (Nginx.get "finance" "budget.txt" (Some Scenario.manager_token))
  = Some {| status := 403; body := "Access Denied" |}.
Proof.
  pose proof (test_site_denials_uniform Scenario.mock_env
                (Nginx.serve {[ "finance/budget.txt" := "Finance only" ]})
                (Nginx.get "finance" "budget.txt" (Some Scenario.manager_token))
                "/auth/finance/budget.txt" eq_refl) as Hsite.
  change (Express.match_auth_regex "/auth/finance/budget.txt")
    with (Express.Matched ("finance", "budget.txt")) in Hsite.
  destruct Hsite as [[Hallowed _] | [_ Hdenied]]; try done.
  intros name. unfold Nginx.serve. by destruct (_ !! name).
Defined.



(** ** The automated test suite *)

Lemma run_tests_from (tests : list TestSuite.Test) (c : TestSuite.Counters) :
  let r := foldl (λ c t, TestSuite.run_test (TestSuite.result t) (TestSuite.expected t)
                           (TestSuite.check_type t) c) c tests in
  TestSuite.TOTAL r = (TestSuite.TOTAL c + length tests)%nat
  ∧ (TestSuite.PASSED r + TestSuite.FAILED r
     = TestSuite.PASSED c + TestSuite.FAILED c + length tests)%nat
  ∧ (TestSuite.FAILED c ≤ TestSuite.FAILED r)%nat
  ∧ (TestSuite.FAILED r = TestSuite.FAILED c
     ↔ Forall (λ t, TestSuite.check (TestSuite.result t) (TestSuite.expected t)
                      (TestSuite.check_type t) = true) tests).
Proof.
  revert c. induction tests as [|t tests IH]; intros c; simpl.
  - repeat split; try lia. by constructor.
  - destruct (IH (TestSuite.run_test (TestSuite.result t) (TestSuite.expected t)
                    (TestSuite.check_type t) c)) as (Htotal & Hsum & Hle & Hall).
    unfold TestSuite.run_test in *.
    destruct (TestSuite.check _ _ _) eqn:Hcheck; simpl in *.
    + repeat split; try lia.
      * intros Hfailed. constructor; [done|]. by apply Hall.
      * intros Hforall. apply Hall. by inversion Hforall.
    + repeat split; try lia.
      intros Hforall. inversion Hforall; congruence.
Qed.

(** X16.  The counters of the test suite add up: after any tests, [TOTAL] is
    the number of tests run and [PASSED + FAILED = TOTAL]; the suite exits
    with 0 exactly when the check of every test held, and with 1 otherwise. *)
Theorem suite_counters_add_up (tests : list TestSuite.Test) :
  TestSuite.TOTAL (TestSuite.run_tests tests) = length tests
  ∧ (TestSuite.PASSED (TestSuite.run_tests tests)
     + TestSuite.FAILED (TestSuite.run_tests tests)
     = TestSuite.TOTAL (TestSuite.run_tests tests))%nat
  ∧ (TestSuite.exit_status (TestSuite.run_tests tests) = 0
     ↔ Forall (λ t, TestSuite.check (TestSuite.result t) (TestSuite.expected t)
                      (TestSuite.check_type t) = true) tests)
  ∧ (TestSuite.exit_status (TestSuite.run_tests tests) = 0
     ∨ TestSuite.exit_status (TestSuite.run_tests tests) = 1).
Proof.
  unfold TestSuite.run_tests, TestSuite.exit_status.
  destruct (run_tests_from tests {| TestSuite.TOTAL := 0; TestSuite.PASSED := 0;
                                     TestSuite.FAILED := 0 |})
    as (Htotal & Hsum & _ & Hall).
  simpl in *. repeat split; try lia.
  - intros Hexit. apply Hall.
    destruct (TestSuite.FAILED _) eqn:Hfailed; [done|]. simpl in Hexit. done.
  - intros Hforall. apply Hall in Hforall. by rewrite Hforall.
  - destruct (TestSuite.FAILED _); simpl; auto.
Qed.

(** What [curl] prints for a secure asset when the credential is rejected. *)
Lemma curl_secure_rejected run k g a cookie :
  Express.path_of_url (Nginx.auth_url (Nginx.get g a None))
  = Some ("/auth/" +:+ g +:+ "/" +:+ a) →
  Express.match_auth_regex ("/auth/" +:+ g +:+ "/" +:+ a) = Express.Matched (g, a) →
  rejected (InlineClaims (TestSuite.mock run k) g a) cookie = true →
  TestSuite.curl_secure run k g a cookie = "Access Denied".
Proof.
  intros Hurl Hroute Hrej.
  unfold TestSuite.curl_secure, Nginx.test_site, Nginx.secure_location.
  change (Nginx.auth_url (Nginx.get g a cookie)) with (Nginx.auth_url (Nginx.get g a None)).
  rewrite Hurl. cbn [mbind option_bind]. unfold Nginx.auth_request.
  rewrite (mock_app_routed _ _ g a) by done.
  rewrite decision_response. unfold inline_claims_response.
  cbn [Express.cookies Nginx.http_cookie Nginx.get].
  destruct cookie as [jwtString|]; [rewrite lookup_singleton_eq | by rewrite lookup_empty].
  destruct (negb (Jwt.truthy (Some jwtString))); [done|].
  by apply rejected_verification in Hrej as (err & -> & _).
Qed.

(** What [curl] prints for a secure asset with a fresh token of the
    generator. *)
Lemma curl_secure_fresh run k g a name user :
  Express.path_of_url (Nginx.auth_url (Nginx.get g a None))
  = Some ("/auth/" +:+ g +:+ "/" +:+ a) →
  Express.match_auth_regex ("/auth/" +:+ g +:+ "/" +:+ a) = Express.Matched (g, a) →
  GenerateToken.users !! name = Some user →
  MockAuthService.now (TestSuite.mock run k) < TestSuite.seconds_exp run k + 3600 →
  TestSuite.curl_secure run k g a (Some (TestSuite.TOKEN run k name))
  = TestSuite.chomp
      (body (Nginx.auth_request
               (if Jwt.includes (GenerateToken.groups user) "Administrators"
                   || Jwt.includes (GenerateToken.groups user) g
                then {| status := 200; body := "OK" |}
                else {| status := 403; body := "Access denied" |})
               {| status := 403; body := "Access Denied" |}
               (Nginx.serve TestSuite.secure_assets (g +:+ "/" +:+ a)))).
Proof.
  intros Hurl Hroute Huser Hfresh.
  unfold TestSuite.curl_secure, Nginx.test_site, Nginx.secure_location.
  change (Nginx.auth_url (Nginx.get g a (Some (TestSuite.TOKEN run k name))))
    with (Nginx.auth_url (Nginx.get g a None)).
  rewrite Hurl. cbn [mbind option_bind].
  rewrite (mock_app_routed _ _ g a) by done.
  rewrite decision_response. unfold inline_claims_response.
  cbn [Express.cookies Nginx.http_cookie Nginx.get Nginx.location_captures fst snd].
  rewrite lookup_singleton_eq.
  unfold TestSuite.TOKEN.
  destruct (GenerateToken.main _ _ _) as [token | code stderr] eqn:Hmain.
  - apply main_printed in Hmain
      as (name' & mail & member_of & [= <-] & -> & [(user' & Huser' & -> & ->) | (Hnone & _)]);
      [|congruence].
    assert (user' = user) as -> by congruence.
    rewrite mock_verifies_generated. cbn [Jwt.truthy negb GenerateToken.sign Jwt.exp].
    apply Z.leb_gt in Hfresh. rewrite Hfresh. cbn [Jwt.groups].
    by destruct (_ || _).
  - unfold GenerateToken.main in Hmain. rewrite Huser in Hmain.
    destruct (String.eqb name "") eqn:Hname; [|done].
    apply String.eqb_eq in Hname as ->. done.
Qed.

(** X17.  The automated test suite passes on the test environment: with the
    files of setup-test-environment.sh behind its nginx configuration and
    the mock, and each token used within an hour of the clock reading of its
    [exp] claim, all 14 tests pass and the suite exits with 0, whatever the
    clock shows. *)
Theorem automated_suite_passes (run : TestSuite.Run) :
  (∀ k, MockAuthService.now (TestSuite.mock run k) < TestSuite.seconds_exp run k + 3600) →
  TestSuite.run_tests (TestSuite.tests run)
  = {| TestSuite.TOTAL := 14; TestSuite.PASSED := 14; TestSuite.FAILED := 0 |}
  ∧ TestSuite.exit_status (TestSuite.run_tests (TestSuite.tests run)) = 0.
Proof.
  intros Hfresh.
  assert (TestSuite.run_tests (TestSuite.tests run)
          = {| TestSuite.TOTAL := 14; TestSuite.PASSED := 14; TestSuite.FAILED := 0 |})
    as ->; [|done].
  unfold TestSuite.tests.
  rewrite !curl_secure_rejected by reflexivity.
  repeat (erewrite curl_secure_fresh; [|reflexivity|reflexivity|reflexivity|apply Hfresh]).
  vm_compute. reflexivity.
Qed.

(** A run in which every token is used ten minutes after it was made. *)
Lemma automated_suite_passes_witness :
  TestSuite.exit_status
    (TestSuite.run_tests
       (TestSuite.tests
          {| TestSuite.seconds_iat := λ _, Scenario.noon - 540;
             TestSuite.seconds_exp := λ _, Scenario.noon - 540;
             TestSuite.mock := λ _, Scenario.mock_env |}))
  = 0.
Proof.
  apply automated_suite_passes. intros k. vm_compute. reflexivity.
Defined.

(** ** The verification script *)

(** X18.  verify-production-server.sh exits with 0 exactly when [ssh]
    works, the database output has no [ERROR] line, [node] and [nginx] are
    found and, if the service is active, the spoofed token got 403; what it
    observes of the port, the disk, the journal and the request without
    cookie never changes the exit status, and a server without the service
    can pass. *)
Theorem verification_exit_status (o : VerifyServer.Observed) :
  (VerifyServer.exit_status o = 0
   ↔ VerifyServer.ssh_ok o = true
     ∧ VerifyServer.db_error_lines o = 0%nat
     ∧ VerifyServer.node_found o = true
     ∧ VerifyServer.nginx_found o = true
     ∧ (VerifyServer.auth_status o = "active" → VerifyServer.spoofed_code o = 403))
  ∧ (VerifyServer.exit_status o = 0 ∨ VerifyServer.exit_status o = 1)
  ∧ (VerifyServer.ERRORS o ≤ 5)%nat.
Proof.
  unfold VerifyServer.exit_status, VerifyServer.ERRORS, VerifyServer.count.
  destruct (VerifyServer.ssh_ok o), (VerifyServer.db_error_lines o) as [|n],
    (VerifyServer.node_found o), (VerifyServer.nginx_found o),
    (String.eqb_spec (VerifyServer.auth_status o) "active") as [Hactive|Hactive],
    (Z.eqb_spec (VerifyServer.spoofed_code o) 403) as [Hcode|Hcode];
    simpl; (split; [|split; [auto | lia]]);
    (split; [intros ?; try done; repeat split; done
            | intros (? & ? & ? & ? & Hprobe); try done; by specialize (Hprobe Hactive)]).
Qed.



(** ** The blocks of the page *)

Lemma init_block_initialized block :
  Page.initialized (Page.init_block block) = true.
Proof.
  unfold Page.init_block.
  destruct (Page.initialized block) eqn:Hinit; [done|].
  unfold Page.initialized. simpl. by rewrite lookup_insert_eq.
Qed.

(** X21.  [initDecryptBlocks] may be called any number of times: a second
    call changes nothing, so a block gets its click listener once; an
    element without the class [encrypted-secret] is never touched, and a
    block already marked as initialized gets no listener at all. *)
Theorem initDecryptBlocks_once (document : list Page.Element) :
  Page.initDecryptBlocks (Page.initDecryptBlocks document)
  = Page.initDecryptBlocks document
  ∧ Forall2 (λ e e',
       (Page.click_listeners e' ≤ S (Page.click_listeners e))%nat
       ∧ Page.classList e' = Page.classList e
       ∧ (Page.encrypted_secret e = false ∨ Page.initialized e = true → e' = e)
       ∧ (Page.encrypted_secret e = true → Page.initialized e' = true))
     document (Page.initDecryptBlocks document).
Proof.
  unfold Page.initDecryptBlocks. split.
  - rewrite <- list_fmap_compose. apply list_fmap_ext. intros _ e _. simpl.
    destruct (Page.encrypted_secret e) eqn:Hclass; [|by rewrite Hclass].
    assert (Page.encrypted_secret (Page.init_block e) = true) as ->.
    { unfold Page.init_block. by destruct (Page.initialized e). }
    unfold Page.init_block at 1. by rewrite init_block_initialized.
  - induction document as [|e document IH]; [by constructor|].
    rewrite fmap_cons. constructor; [|done].
    destruct (Page.encrypted_secret e) eqn:Hclass.
    + pose proof (init_block_initialized e) as Hdone.
      unfold Page.init_block in *.
      destruct (Page.initialized e) eqn:Hinit; simpl;
        repeat split; try done; try lia; by intros [|].
    + repeat split; try done; lia.
Qed.
